(** * Nutrition tracker: the store, the five operations and their aggregation

    A shallow embedding of [main.py].  The SQLite file is a record of
    tables, each table the list of its rows in rowid (scan) order; every
    tool function is a computation in a small state monad over that
    record; the dictionaries the tools return are records whose fields
    carry the dictionary keys.

    Domains.  Arguments have the types of the tool signatures: [str] is
    [string] (compared bytewise, as SQLite's BINARY collation does), [int]
    is [Z], [float] is a binary64 [float].  What the driver does with such
    an argument is part of the model: an [int] outside 64 bits raises
    [OverflowError] and nothing is written; a float bound to a REAL column
    is stored as NULL when it is NaN and as [0.0] when it is [-0.0]; a
    NULL read back is [None], and multiplying by it raises [TypeError].
    The rows of a file are rows such writes leave: an integer where the
    program binds an [int], a double or NULL in a REAL column, a string
    or NULL in [meal].
    Limits of resources are not: a table is taken never to reach SQLite's
    last rowid, and the file to be readable and writable.  The clock read
    [date.today().isoformat()] is the argument [today] of the operations
    that perform it.  The startup loop that picks [DB_PATH] is modelled
    over a file system whose three calls are parameters. *)

From Stdlib Require Import ZArith List Ascii String Bool Lia Permutation.
From Stdlib Require Import Floats.
Import ListNotations.

Local Open Scope string_scope.
Local Open Scope list_scope.
Local Open Scope Z_scope.

(** ** Python values *)

Module Py.

(** A Python number: [int] or [float]. *)
Inductive num : Type :=
| Int (z : Z)
| Float (x : float).

(** [float(z)]: the double nearest to [z], ties to even. *)
Definition float_of_int (z : Z) : float :=
  SF2Prim (binary_normalize prec emax z 0 false).

Definition as_float (n : num) : float :=
  match n with
  | Int z => float_of_int z
  | Float x => x
  end.

(** Binary arithmetic: two ints stay an int, otherwise both operands are
    taken as floats. *)
Definition binop (fz : Z -> Z -> Z) (ff : float -> float -> float)
    (a b : num) : num :=
  match a, b with
  | Int x, Int y => Int (fz x y)
  | _, _ => Float (ff (as_float a) (as_float b))
  end.

Definition add : num -> num -> num := binop Z.add PrimFloat.add.
Definition sub : num -> num -> num := binop Z.sub PrimFloat.sub.
Definition mul : num -> num -> num := binop Z.mul PrimFloat.mul.

(** [not s] for [s : str | None]. *)
Definition not_str (s : option string) : bool :=
  match s with
  | None => true
  | Some "" => true
  | Some _ => false
  end.

(** [s or d] for [s : str | None]. *)
Definition or_str (s : option string) (d : string) : string :=
  match s with
  | None => d
  | Some "" => d
  | Some v => v
  end.

Inductive exn : Type :=
| TypeError (msg : string)
| OverflowError (msg : string).

(** What a call yields: a returned value or a raised exception. *)
Inductive outcome (A : Type) : Type :=
| Return (a : A)
| Raise (e : exn).

Arguments Return {A} a.
Arguments Raise {A} e.

(** [type(v).__name__] of a value read from a numeric column: a number or
    [None]. *)
Definition type_name (v : option num) : string :=
  match v with
  | None => "NoneType"
  | Some (Int _) => "int"
  | Some (Float _) => "float"
  end.

(** [a * b] on such values. *)
Definition mul_values (a b : option num) : outcome num :=
  match a, b with
  | Some x, Some y => Return (mul x y)
  | _, _ =>
      Raise (TypeError
               (String.concat ""
                  [ "unsupported operand type(s) for *: '"; type_name a;
                    "' and '"; type_name b; "'" ]))
  end.

(** The rest of a block after a statement that may raise. *)
Definition and_then {A B : Type} (r : outcome A) (k : A -> outcome B)
    : outcome B :=
  match r with
  | Return a => k a
  | Raise e => Raise e
  end.

End Py.

(** ** Rows of the three tables *)

Module Food.
Record t : Type := mk {
  id : Z;
  name : string;
  calories : Z;
  protein : option float;   (* a REAL column: a double, or NULL *)
  carbs : option float;
  fat : option float
}.
End Food.

Module Log.
Record t : Type := mk {
  id : Z;
  food_id : Z;
  quantity : option float;
  log_date : string;
  meal : option string   (* NULL on rows that predate the column *)
}.
End Log.

(** A [logs] row of the older layout, before the [meal] column. *)
Module LegacyLog.
Record t : Type := mk {
  id : Z;
  food_id : Z;
  quantity : option float;
  log_date : string
}.
End LegacyLog.

Module Goal.
Record t : Type := mk {
  id : Z;
  daily_calories : Z
}.
End Goal.

(** ** The database file and the store the tools work on *)

(** The [logs] table as found on disk: with or without the [meal] column.
    [seq] is the table's entry of [sqlite_sequence]. *)
Inductive logs_table : Type :=
| LogsLegacy (rows : list LegacyLog.t) (seq : Z)
| LogsCurrent (rows : list Log.t) (seq : Z).

(** The file [DB_PATH] as [init_db] finds it: each table may be absent. *)
Record database : Type := mk_database {
  db_foods : option (list Food.t * Z);
  db_logs : option logs_table;
  db_goals : option (list Goal.t)
}.

(** The database once [init_db] has run (line 93 runs it at import, before
    any tool can be called): the three tables exist and [logs] has its
    [meal] column. *)
Record store : Type := mk_store {
  foods : list Food.t;
  foods_seq : Z;
  logs : list Log.t;
  logs_seq : Z;
  goals : list Goal.t
}.

Definition fresh_file : database :=
  {| db_foods := None; db_logs := None; db_goals := None |}.

(** The file that holds a store. *)
Definition on_disk (s : store) : database :=
  {| db_foods := Some (foods s, foods_seq s);
     db_logs := Some (LogsCurrent (logs s) (logs_seq s));
     db_goals := Some (goals s) |}.

(** ** SQLite statements *)

Module Sql.

(** What SQLite can hold in an INTEGER: the driver binds no other [int]. *)
Definition int64 (z : Z) : bool := (- 2 ^ 63 <=? z) && (z <? 2 ^ 63).

Definition too_large : Py.exn :=
  Py.OverflowError "Python int too large to convert to SQLite INTEGER".

(** What a REAL column holds once a float is bound to it: NULL for NaN,
    [0.0] for either zero, the float itself otherwise. *)
Definition store_real (x : float) : option float :=
  if PrimFloat.is_nan x then None
  else if PrimFloat.is_zero x then Some 0%float
  else Some x.

Definition max_rowid (ids : list Z) : Z := fold_right Z.max 0 ids.

(** The rowid an AUTOINCREMENT table gives its next row: one more than the
    largest rowid the table holds or has ever held. *)
Definition new_rowid (seq : Z) (ids : list Z) : Z :=
  Z.max seq (max_rowid ids) + 1.

(** [ALTER TABLE logs ADD COLUMN meal TEXT]: existing rows read NULL. *)
Definition add_meal_column (r : LegacyLog.t) : Log.t :=
  {| Log.id := LegacyLog.id r;
     Log.food_id := LegacyLog.food_id r;
     Log.quantity := LegacyLog.quantity r;
     Log.log_date := LegacyLog.log_date r;
     Log.meal := None |}.

(** [INSERT OR IGNORE INTO goals (id, daily_calories) VALUES (id, c)]
    under [id INTEGER PRIMARY KEY CHECK (id = 1)]: a row that breaks the
    check or meets a row with its key is skipped. *)
Definition insert_or_ignore_goal (id c : Z) (t : list Goal.t) : list Goal.t :=
  if negb (id =? 1) || existsb (fun g => Goal.id g =? id) t
  then t
  else t ++ [ {| Goal.id := id; Goal.daily_calories := c |} ].

(** [UPDATE goals SET daily_calories = c WHERE id = 1]. *)
Definition update_goal (c : Z) (t : list Goal.t)
    : Py.outcome (list Goal.t) :=
  if int64 c then
    Py.Return
      (map (fun g =>
              if Goal.id g =? 1
              then {| Goal.id := Goal.id g; Goal.daily_calories := c |}
              else g) t)
  else Py.Raise too_large.

(** [SELECT daily_calories FROM goals WHERE id = 1], [fetchone()]. *)
Definition select_goal (t : list Goal.t) : option Z :=
  option_map Goal.daily_calories (find (fun g => Goal.id g =? 1) t).

(** [INSERT OR REPLACE INTO foods (name, calories, protein, carbs, fat)]
    under [id INTEGER PRIMARY KEY AUTOINCREMENT, name TEXT UNIQUE]: the
    new row takes a fresh rowid, every row that holds its name is deleted,
    and the new row is stored. *)
Definition insert_or_replace_food (name : string) (calories : Z)
    (protein carbs fat : float) (t : list Food.t * Z)
    : Py.outcome (list Food.t * Z) :=
  if int64 calories then
    let rowid := new_rowid (snd t) (map Food.id (fst t)) in
    Py.Return
      (filter (fun f => negb (String.eqb (Food.name f) name)) (fst t)
         ++ [ {| Food.id := rowid; Food.name := name;
                 Food.calories := calories;
                 Food.protein := store_real protein;
                 Food.carbs := store_real carbs;
                 Food.fat := store_real fat |} ],
       rowid)
  else Py.Raise too_large.

(** [SELECT id FROM foods WHERE name = ?], [fetchone()]. *)
Definition select_food_id (name : string) (t : list Food.t) : option Z :=
  option_map Food.id (find (fun f => String.eqb (Food.name f) name) t).

(** [INSERT INTO logs (food_id, quantity, log_date, meal)]. *)
Definition insert_log (food_id : Z) (quantity : float) (log_date meal : string)
    (t : list Log.t * Z) : list Log.t * Z :=
  let rowid := new_rowid (snd t) (map Log.id (fst t)) in
  (fst t ++ [ {| Log.id := rowid; Log.food_id := food_id;
                 Log.quantity := store_real quantity;
                 Log.log_date := log_date;
                 Log.meal := Some meal |} ],
   rowid).

(** [FROM logs l JOIN foods f ON l.food_id = f.id WHERE l.log_date = ?]:
    [logs] is scanned in rowid order and [foods] is searched by key for
    each of its rows; the WHERE clause filters the joined rows. *)
Definition join_on_date (ls : list Log.t) (fs : list Food.t) (d : string)
    : list (Log.t * Food.t) :=
  filter (fun lf => String.eqb (Log.log_date (fst lf)) d)
    (flat_map
       (fun l => map (pair l)
                   (filter (fun f => Log.food_id l =? Food.id f) fs))
       ls).

End Sql.

(** ** The state monad of a connection *)

Definition Db (A : Type) : Type := store -> A * store.

Definition ret {A : Type} (a : A) : Db A := fun s => (a, s).

Definition bind {A B : Type} (c : Db A) (k : A -> Db B) : Db B :=
  fun s => let (a, s') := c s in k a s'.

Notation "x <- c ;; k" := (bind c (fun x => k))
  (at level 61, c at next level, right associativity).
Notation "c ;; k" := (bind c (fun _ => k))
  (at level 61, right associativity).

(** [db.execute] of a statement that reads. *)
Definition query {A : Type} (q : store -> A) : Db A := fun s => (q s, s).

(** [db.execute] of a statement that writes, and [db.commit()]. *)
Definition execute (w : store -> store) : Db unit := fun s => (tt, w s).

(** The same for a statement the driver may refuse: the exception leaves
    the [with] block, which rolls back, so the store is as it was. *)
Definition execute_checked (w : store -> Py.outcome store)
    : Db (Py.outcome unit) :=
  fun s =>
    match w s with
    | Py.Return s' => (Py.Return tt, s')
    | Py.Raise e => (Py.Raise e, s)
    end.

Definition set_foods (t : list Food.t * Z) (s : store) : store :=
  {| foods := fst t; foods_seq := snd t;
     logs := logs s; logs_seq := logs_seq s; goals := goals s |}.

Definition set_logs (t : list Log.t * Z) (s : store) : store :=
  {| foods := foods s; foods_seq := foods_seq s;
     logs := fst t; logs_seq := snd t; goals := goals s |}.

Definition set_goals (t : list Goal.t) (s : store) : store :=
  {| foods := foods s; foods_seq := foods_seq s;
     logs := logs s; logs_seq := logs_seq s; goals := t |}.

(** ** [init_db] *)

Definition init_db (d : database) : store :=
  (* CREATE TABLE IF NOT EXISTS foods *)
  let f := match db_foods d with Some t => t | None => ([], 0) end in
  (* CREATE TABLE IF NOT EXISTS logs *)
  let l := match db_logs d with Some t => t | None => LogsCurrent [] 0 end in
  (* PRAGMA table_info(logs); if "meal" not in cols: ALTER TABLE ...
     (the statement adds a nullable column to a table that lacks it, which
     SQLite accepts, so the except branch is not taken) *)
  let l := match l with
           | LogsLegacy rows seq => (map Sql.add_meal_column rows, seq)
           | LogsCurrent rows seq => (rows, seq)
           end in
  (* CREATE TABLE IF NOT EXISTS goals *)
  let g := match db_goals d with Some t => t | None => [] end in
  (* INSERT OR IGNORE INTO goals (id, daily_calories) VALUES (1, 2000) *)
  let g := Sql.insert_or_ignore_goal 1 2000 g in
  {| foods := fst f; foods_seq := snd f;
     logs := fst l; logs_seq := snd l; goals := g |}.

(** ** [add_food] *)

Module AddFood.
Record result : Type := mk {
  status : string;
  food : string;
  db_path : string
}.
End AddFood.

Definition add_food (DB_PATH : string) (name : string) (calories : Z)
    (protein carbs fat : float) : Db (Py.outcome AddFood.result) :=
  written <- execute_checked (fun s =>
    Py.and_then
      (Sql.insert_or_replace_food name calories protein carbs fat
         (foods s, foods_seq s))
      (fun t => Py.Return (set_foods t s))) ;;
  ret (Py.and_then written (fun _ =>
         Py.Return {| AddFood.status := "ok";
                      AddFood.food := name;
                      AddFood.db_path := DB_PATH |})).

(** ** [log_food] *)

Module LogFood.
Inductive result : Type :=
| Error (status message : string)
| Logged (status food : string) (quantity : float) (meal : string).

Definition status (r : result) : string :=
  match r with
  | Error st _ => st
  | Logged st _ _ _ => st
  end.
End LogFood.

(** The default of the [meal] parameter. *)
Definition meal_default : string := "unspecified".

Definition log_food (today : string) (name : string) (quantity : float)
    (meal : string) : Db LogFood.result :=
  row <- query (fun s => Sql.select_food_id name (foods s)) ;;
  match row with
  | None => ret (LogFood.Error "error" "Food not found")
  | Some id =>
      execute (fun s =>
        set_logs (Sql.insert_log id quantity today meal (logs s, logs_seq s)) s) ;;
      ret (LogFood.Logged "ok" name quantity meal)
  end.

(** ** [get_meals] *)

(** What a REAL column reads as in Python: a [float], or [None]. *)
Definition real_value (x : option float) : option Py.num :=
  option_map Py.Float x.

Module View.
Record t : Type := mk {
  log_id : Z;
  food : string;
  quantity : option float;
  calories_per_serving : Z;
  protein_per_serving : option float;
  carbs_per_serving : option float;
  fat_per_serving : option float;
  calories_total : Py.num
}.
End View.

Module GetMeals.
Record result : Type := mk {
  date : string;
  meals : list (string * list View.t)   (* a dict, in insertion order *)
}.
End GetMeals.

(** [r["meal"] or "unspecified"] *)
Definition meal_name (r : Log.t * Food.t) : string :=
  Py.or_str (Log.meal (fst r)) "unspecified".

(** The dictionary appended for a joined row; its last item is
    [r["calories"] * r["quantity"]], which raises on a NULL quantity. *)
Definition view (r : Log.t * Food.t) : Py.outcome View.t :=
  let (l, f) := r in
  Py.and_then
    (Py.mul_values (Some (Py.Int (Food.calories f)))
       (real_value (Log.quantity l)))
    (fun total =>
       Py.Return
         {| View.log_id := Log.id l;
            View.food := Food.name f;
            View.quantity := Log.quantity l;
            View.calories_per_serving := Food.calories f;
            View.protein_per_serving := Food.protein f;
            View.carbs_per_serving := Food.carbs f;
            View.fat_per_serving := Food.fat f;
            View.calories_total := total |}).

(** [meals.setdefault(k, []).append(v)] on an insertion-ordered dict. *)
Fixpoint setdefault_append {V : Type} (k : string) (v : V)
    (meals : list (string * list V)) : list (string * list V) :=
  match meals with
  | [] => [(k, [v])]
  | (k', vs) :: rest =>
      if String.eqb k' k then (k', vs ++ [v]) :: rest
      else (k', vs) :: setdefault_append k v rest
  end.

(** The [for] loop over the fetched rows, from the dict built so far: an
    exception in its body ends the call. *)
Fixpoint group_rows (rows : list (Log.t * Food.t))
    (meals : list (string * list View.t))
    : Py.outcome (list (string * list View.t)) :=
  match rows with
  | [] => Py.Return meals
  | r :: rest =>
      Py.and_then (view r)
        (fun v => group_rows rest (setdefault_append (meal_name r) v meals))
  end.

(** The date [get_meals] queries. *)
Definition query_date (today : string) (date_str : option string) : string :=
  if Py.not_str date_str then today
  else match date_str with Some d => d | None => today end.

Definition get_meals (today : string) (date_str : option string)
    : Db (Py.outcome GetMeals.result) :=
  let date_str := query_date today date_str in
  rows <- query (fun s => Sql.join_on_date (logs s) (foods s) date_str) ;;
  ret (Py.and_then (group_rows rows [])
         (fun meals =>
            Py.Return {| GetMeals.date := date_str; GetMeals.meals := meals |})).

(** ** [set_daily_calorie_goal] *)

Module SetGoal.
Record result : Type := mk {
  status : string;
  daily_calories : Z
}.
End SetGoal.

Definition set_daily_calorie_goal (calories : Z)
    : Db (Py.outcome SetGoal.result) :=
  written <- execute_checked (fun s =>
    Py.and_then (Sql.update_goal calories (goals s))
      (fun t => Py.Return (set_goals t s))) ;;
  ret (Py.and_then written (fun _ =>
         Py.Return {| SetGoal.status := "ok";
                      SetGoal.daily_calories := calories |})).

(** ** [today_summary] *)

Module Totals.
Record t : Type := mk {
  calories : Py.num;
  protein : Py.num;
  carbs : Py.num;
  fat : Py.num
}.
End Totals.

Module Summary.
Record result : Type := mk {
  totals : Totals.t;
  goal : Z;
  remaining_calories : Py.num
}.
End Summary.

(** One pass of the loop body, its four statements in order:
    [totals[k] += row[k] * row["quantity"]]. *)
Definition accumulate (t : Totals.t) (r : Log.t * Food.t)
    : Py.outcome Totals.t :=
  let q := real_value (Log.quantity (fst r)) in
  let f := snd r in
  Py.and_then (Py.mul_values (Some (Py.Int (Food.calories f))) q) (fun c =>
  Py.and_then (Py.mul_values (real_value (Food.protein f)) q) (fun p =>
  Py.and_then (Py.mul_values (real_value (Food.carbs f)) q) (fun cb =>
  Py.and_then (Py.mul_values (real_value (Food.fat f)) q) (fun ft =>
  Py.Return
    {| Totals.calories := Py.add (Totals.calories t) c;
       Totals.protein := Py.add (Totals.protein t) p;
       Totals.carbs := Py.add (Totals.carbs t) cb;
       Totals.fat := Py.add (Totals.fat t) ft |})))).

Definition totals_zero : Totals.t :=
  {| Totals.calories := Py.Int 0; Totals.protein := Py.Int 0;
     Totals.carbs := Py.Int 0; Totals.fat := Py.Int 0 |}.

(** The [for] loop over the fetched rows, from the totals so far. *)
Fixpoint sum_rows (rows : list (Log.t * Food.t)) (t : Totals.t)
    : Py.outcome Totals.t :=
  match rows with
  | [] => Py.Return t
  | r :: rest => Py.and_then (accumulate t r) (sum_rows rest)
  end.

Definition today_summary (today : string) : Db (Py.outcome Summary.result) :=
  rows <- query (fun s => Sql.join_on_date (logs s) (foods s) today) ;;
  match sum_rows rows totals_zero with
  | Py.Raise e => ret (Py.Raise e)
  | Py.Return totals =>
      goal <- query (fun s => Sql.select_goal (goals s)) ;;
      match goal with
      | None =>
          ret (Py.Raise (Py.TypeError "'NoneType' object is not subscriptable"))
      | Some goal =>
          ret (Py.Return
                 {| Summary.totals := totals;
                    Summary.goal := goal;
                    Summary.remaining_calories :=
                      Py.sub (Py.Int goal) (Totals.calories totals) |})
      end
  end.

(** ** Sequences of calls *)

(** A tool call, or a restart of the process (which runs [init_db] on the
    file again). *)
Inductive call : Type :=
| CallAddFood (name : string) (calories : Z) (protein carbs fat : float)
| CallLogFood (today name : string) (quantity : float) (meal : string)
| CallGetMeals (today : string) (date_str : option string)
| CallSetGoal (calories : Z)
| CallTodaySummary (today : string)
| Restart.

(** The store a call leaves behind. *)
Definition step (DB_PATH : string) (s : store) (c : call) : store :=
  match c with
  | CallAddFood name calories protein carbs fat =>
      snd (add_food DB_PATH name calories protein carbs fat s)
  | CallLogFood today name quantity meal =>
      snd (log_food today name quantity meal s)
  | CallGetMeals today date_str => snd (get_meals today date_str s)
  | CallSetGoal calories => snd (set_daily_calorie_goal calories s)
  | CallTodaySummary today => snd (today_summary today s)
  | Restart => init_db (on_disk s)
  end.

Definition run (DB_PATH : string) (calls : list call) (s : store) : store :=
  fold_left (step DB_PATH) calls s.

(** ** The constraints of the schema *)

(** [goals]: [id INTEGER PRIMARY KEY CHECK (id = 1)]. *)
Definition goals_ok (t : list Goal.t) : Prop :=
  NoDup (map Goal.id t) /\ Forall (fun g => Goal.id g = 1) t.

(** The constraints the three tables declare: the primary keys, the
    UNIQUE food name and the CHECK on the goal's key. *)
Record schema_ok (s : store) : Prop := {
  foods_pk : NoDup (map Food.id (foods s));
  foods_name_unique : NoDup (map Food.name (foods s));
  logs_pk : NoDup (map Log.id (logs s));
  goals_constraints : goals_ok (goals s)
}.

Definition logs_table_ids (t : logs_table) : list Z :=
  match t with
  | LogsLegacy rows _ => map LegacyLog.id rows
  | LogsCurrent rows _ => map Log.id rows
  end.

(** The same constraints on a file, for each table it has. *)
Record file_ok (d : database) : Prop := {
  file_foods_pk :
    forall t, db_foods d = Some t -> NoDup (map Food.id (fst t));
  file_foods_name_unique :
    forall t, db_foods d = Some t -> NoDup (map Food.name (fst t));
  file_logs_pk :
    forall t, db_logs d = Some t -> NoDup (logs_table_ids t);
  file_goals_constraints :
    forall t, db_goals d = Some t -> goals_ok t
}.

(** The singleton goal row is there. *)
Definition goal_is (s : store) (c : Z) : Prop :=
  goals s = [ {| Goal.id := 1; Goal.daily_calories := c |} ].

(** ** The aggregation, as the specification words it *)

(** The food a log row references: the row of [foods] that has its
    [food_id] as key, if there is one. *)
Definition food_of (s : store) (l : Log.t) : option Food.t :=
  find (fun f => Food.id f =? Log.food_id l) (foods s).

(** The log rows whose [log_date] is [d], in log order, each joined to the
    food it references; a row whose food is not found is left out. *)
Definition entries_on (s : store) (d : string) : list (Log.t * Food.t) :=
  flat_map
    (fun l => match food_of s l with Some f => [(l, f)] | None => [] end)
    (filter (fun l => String.eqb (Log.log_date l) d) (logs s)).

(** The entry's quantity is not NULL. *)
Definition has_quantity (r : Log.t * Food.t) : bool :=
  match Log.quantity (fst r) with Some _ => true | None => false end.

(** Neither the entry's quantity nor a macro value of its food is NULL. *)
Definition complete (r : Log.t * Food.t) : bool :=
  match Log.quantity (fst r), Food.protein (snd r), Food.carbs (snd r),
        Food.fat (snd r) with
  | Some _, Some _, Some _, Some _ => true
  | _, _, _, _ => false
  end.

(** [value * quantity], when neither is NULL. *)
Definition product (value quantity : option Py.num) : option Py.num :=
  match value, quantity with
  | Some v, Some q => Some (Py.mul v q)
  | _, _ => None
  end.

(** One more row in a running sum of [field * quantity]. *)
Definition add_product (field : Food.t -> option Py.num)
    (sum : option Py.num) (r : Log.t * Food.t) : option Py.num :=
  match sum, product (field (snd r)) (real_value (Log.quantity (fst r))) with
  | Some a, Some x => Some (Py.add a x)
  | _, _ => None
  end.

(** The sum over [rows], formed from [0] in row order, of
    [food field * quantity]; undefined when a product is. *)
Definition total_of (field : Food.t -> option Py.num)
    (rows : list (Log.t * Food.t)) : option Py.num :=
  fold_left (add_product field) rows (Some (Py.Int 0)).

Definition calories_of (f : Food.t) : option Py.num :=
  Some (Py.Int (Food.calories f)).
Definition protein_of (f : Food.t) : option Py.num :=
  real_value (Food.protein f).
Definition carbs_of (f : Food.t) : option Py.num :=
  real_value (Food.carbs f).
Definition fat_of (f : Food.t) : option Py.num :=
  real_value (Food.fat f).

(** The distinct labels of a list, in order of first occurrence. *)
Fixpoint first_occurrences (ks : list string) : list string :=
  match ks with
  | [] => []
  | k :: ks =>
      k :: filter (fun k' => negb (String.eqb k' k)) (first_occurrences ks)
  end.

(** The view of an entry whose quantity is [q]: the log id, the food's
    name, the quantity, the food's values per serving, and
    [calories_total = calories_per_serving * quantity]. *)
Definition entry_view (r : Log.t * Food.t) (q : float) : View.t :=
  {| View.log_id := Log.id (fst r);
     View.food := Food.name (snd r);
     View.quantity := Some q;
     View.calories_per_serving := Food.calories (snd r);
     View.protein_per_serving := Food.protein (snd r);
     View.carbs_per_serving := Food.carbs (snd r);
     View.fat_per_serving := Food.fat (snd r);
     View.calories_total :=
       Py.mul (Py.Int (Food.calories (snd r))) (Py.Float q) |}.

(** The views of the entries that have a quantity, in row order. *)
Definition views_of (rows : list (Log.t * Food.t)) : list View.t :=
  flat_map
    (fun r => match Log.quantity (fst r) with
              | Some q => [entry_view r q]
              | None => []
              end)
    rows.

(** The entry views of the rows whose meal label is [k], in row order. *)
Definition group_of (k : string) (rows : list (Log.t * Food.t)) : list View.t :=
  views_of (filter (fun r => String.eqb (meal_name r) k) rows).

(** One group per label that occurs among [rows], in order of first
    occurrence, each holding the views of the rows with its label. *)
Definition groups_by_meal (rows : list (Log.t * Food.t))
    : list (string * list View.t) :=
  map (fun k => (k, group_of k rows)) (first_occurrences (map meal_name rows)).

(** What [r["calories"] * r["quantity"]] raises on a NULL quantity. *)
Definition no_quantity : Py.exn :=
  Py.TypeError "unsupported operand type(s) for *: 'int' and 'NoneType'".

(** What [get_meals] yields for date [d] when [rows] are the entries of
    that date: their groups, or the exception if a quantity is NULL. *)
Definition meals_of (d : string) (rows : list (Log.t * Food.t))
    : Py.outcome GetMeals.result :=
  if forallb has_quantity rows
  then Py.Return {| GetMeals.date := d; GetMeals.meals := groups_by_meal rows |}
  else Py.Raise no_quantity.

(** The store without the log row at one position. *)
Definition with_logs (s : store) (ls : list Log.t) : store :=
  {| foods := foods s; foods_seq := foods_seq s;
     logs := ls; logs_seq := logs_seq s; goals := goals s |}.

(** An id at or below the [foods] counter that no food row has. *)
Definition retired (s : store) (i : Z) : Prop :=
  i <= foods_seq s /\ forall g, In g (foods s) -> Food.id g <> i.

(** The running totals after one more row of [quantity] servings of a food
    with the given values. *)
Definition totals_plus (t : Totals.t) (calories : Z)
    (protein carbs fat quantity : float) : Totals.t :=
  {| Totals.calories :=
       Py.add (Totals.calories t)
         (Py.mul (Py.Int calories) (Py.Float quantity));
     Totals.protein :=
       Py.add (Totals.protein t)
         (Py.mul (Py.Float protein) (Py.Float quantity));
     Totals.carbs :=
       Py.add (Totals.carbs t) (Py.mul (Py.Float carbs) (Py.Float quantity));
     Totals.fat :=
       Py.add (Totals.fat t) (Py.mul (Py.Float fat) (Py.Float quantity)) |}.

(** [result["totals"]] of what [today_summary] yields, when it returns. *)
Definition totals_of (r : Py.outcome Summary.result) : option Totals.t :=
  match r with
  | Py.Return r => Some (Summary.totals r)
  | Py.Raise _ => None
  end.

(** Every log row references an id the [foods] table has already given
    out: one below the id its next row would take. *)
Definition refs_issued (s : store) : Prop :=
  forall l, In l (logs s) ->
    Log.food_id l < Sql.new_rowid (foods_seq s) (map Food.id (foods s)).

(** ** Choosing the database file *)

(** A [pathlib] POSIX path: whether it starts at the root, and its
    components.  (A path that starts with exactly two slashes has a root
    of its own in [pathlib]; none of the paths here does.) *)
Module Path.

Record t : Type := mk {
  absolute : bool;
  parts : list string
}.

(** The pieces of a string between its slashes. *)
Fixpoint pieces (s : string) : list string :=
  match s with
  | EmptyString => [EmptyString]
  | String c rest =>
      if Ascii.eqb c "/"%char then EmptyString :: pieces rest
      else match pieces rest with
           | [] => [String c EmptyString]
           | x :: xs => String c x :: xs
           end
  end.

(** [Path(s)]: empty pieces and ["."] pieces are dropped. *)
Definition of_string (s : string) : t :=
  {| absolute := String.prefix "/" s;
     parts :=
       filter (fun x => negb (String.eqb x "" || String.eqb x "."))
         (pieces s) |}.

(** [p.parent] *)
Definition parent (p : t) : t :=
  {| absolute := absolute p; parts := removelast (parts p) |}.

(** [p / q] *)
Definition div (p q : t) : t :=
  if absolute q then q
  else {| absolute := absolute p; parts := parts p ++ parts q |}.

(** [str(p)] *)
Definition to_string (p : t) : string :=
  match absolute p, parts p with
  | true, ps => String.append "/" (String.concat "/" ps)
  | false, [] => "."
  | false, ps => String.concat "/" ps
  end.

End Path.

Definition DB_LOCATIONS : list Path.t :=
  [ Path.of_string "/data/nutrition.db";
    Path.of_string "/tmp/nutrition.db";
    Path.of_string "./nutrition.db" ].

(** What the import of the module yields: the chosen [DB_PATH], or the
    [RuntimeError] of line 32. *)
Inductive startup : Type :=
| Started (DB_PATH : Path.t)
| RuntimeError (msg : string).

Section Startup.

(** The file system, and the three calls made on it: each says whether it
    returns ([true]) or raises [OSError] ([PermissionError] is an
    [OSError]), and gives the file system it leaves.  The lines printed
    are not modelled. *)
Variable FS : Type.
Variable mkdir : Path.t -> FS -> bool * FS.   (* parents=True, exist_ok=True *)
Variable touch : Path.t -> FS -> bool * FS.
Variable unlink : Path.t -> FS -> bool * FS.

(** The body of the [try]: [true] when it reaches [DB_PATH = location]. *)
Definition write_test (location : Path.t) (fs : FS) : bool * FS :=
  let (made, fs) := mkdir (Path.parent location) fs in
  if made then
    let test_file :=
      Path.div (Path.parent location) (Path.of_string ".write_test") in
    let (touched, fs) := touch test_file fs in
    if touched then unlink test_file fs else (false, fs)
  else (false, fs).

(** The [for] loop: [break] at the first location that passes. *)
Fixpoint choose_db_path (locations : list Path.t) (fs : FS)
    : option Path.t * FS :=
  match locations with
  | [] => (None, fs)
  | location :: rest =>
      let (passed, fs) := write_test location fs in
      if passed then (Some location, fs) else choose_db_path rest fs
  end.

(** Lines 14 to 32. *)
Definition choose_or_raise (fs : FS) : startup * FS :=
  let (found, fs) := choose_db_path DB_LOCATIONS fs in
  (match found with
   | Some location => Started location
   | None => RuntimeError "No writable location found for database!"
   end, fs).

(** Each of [locations] is tried in turn from [fs] and fails, which leaves
    the file system [fs']. *)
Inductive all_fail : list Path.t -> FS -> FS -> Prop :=
| all_fail_nil (fs : FS) : all_fail [] fs fs
| all_fail_cons (location : Path.t) (rest : list Path.t) (fs fs1 fs' : FS) :
    write_test location fs = (false, fs1) ->
    all_fail rest fs1 fs' ->
    all_fail (location :: rest) fs fs'.

End Startup.

(** ** A run on a fresh file *)

Definition demo_store : store :=
  let s := init_db fresh_file in
  let s := snd (add_food "/tmp/nutrition.db" "apple" 95 0.5 25 0.25 s) in
  let s := snd (add_food "/tmp/nutrition.db" "egg" 70 6 0.5 5 s) in
  let s := snd (log_food "2024-01-01" "apple" 2 "breakfast" s) in
  let s := snd (log_food "2024-01-01" "egg" 1.5 "lunch" s) in
  snd (log_food "2024-01-02" "apple" 1 "breakfast" s).

(** A file left by the older layout: its [logs] rows have no [meal]. *)
Definition legacy_file : database :=
  {| db_foods :=
       Some ([ Food.mk 1 "apple" 95 (Some 0.5%float) (Some 25%float) (Some 0.25%float) ], 1);
     db_logs :=
       Some (LogsLegacy
               [ LegacyLog.mk 1 1 (Some 2%float) "2023-12-31";
                 LegacyLog.mk 2 1 (Some 0.5%float) "2023-12-31" ] 2);
     db_goals := Some [ Goal.mk 1 1800 ] |}.

(** * Theorems *)

(** Unfolds the statements of a tool down to the store they leave. *)
Ltac run_db :=
  unfold add_food, log_food, get_meals, set_daily_calorie_goal, today_summary,
    bind, query, execute, execute_checked, ret, set_foods, set_logs, set_goals;
  simpl.

(** ** The run on a fresh file *)

Example demo_store_foods :
  foods demo_store =
  [ Food.mk 1 "apple" 95 (Some 0.5%float) (Some 25%float) (Some 0.25%float);
    Food.mk 2 "egg" 70 (Some 6%float) (Some 0.5%float) (Some 5%float) ].
Proof. reflexivity. Qed.

Example demo_get_meals :
  fst (get_meals "2024-01-02" (Some "2024-01-01") demo_store) =
  Py.Return
    {| GetMeals.date := "2024-01-01";
       GetMeals.meals :=
         [ ("breakfast",
            [ View.mk 1 "apple" (Some 2%float) 95 (Some 0.5%float)
                (Some 25%float) (Some 0.25%float) (Py.Float 190) ]);
           ("lunch",
            [ View.mk 2 "egg" (Some 1.5%float) 70 (Some 6%float)
                (Some 0.5%float) (Some 5%float) (Py.Float 105) ]) ] |}.
Proof. reflexivity. Qed.

Example demo_today_summary :
  fst (today_summary "2024-01-01" demo_store) =
  Py.Return
    {| Summary.totals :=
         {| Totals.calories := Py.Float 295; Totals.protein := Py.Float 10;
            Totals.carbs := Py.Float 50.75; Totals.fat := Py.Float 8 |};
       Summary.goal := 2000;
       Summary.remaining_calories := Py.Float 1705 |}.
Proof. reflexivity. Qed.

(** ** What the driver stores *)

Example store_real_nan : Sql.store_real nan = None.
Proof. reflexivity. Qed.

Example store_real_neg_zero : Sql.store_real (-0)%float = Some 0%float.
Proof. reflexivity. Qed.

Example int64_bounds :
  Sql.int64 (2 ^ 63 - 1) = true /\ Sql.int64 (- 2 ^ 63) = true
  /\ Sql.int64 (2 ^ 63) = false /\ Sql.int64 (- 2 ^ 63 - 1) = false.
Proof. repeat split. Qed.

(** A float that is neither NaN nor a zero is stored as it is. *)
Lemma store_real_same (x : float) :
  PrimFloat.is_nan x = false -> PrimFloat.is_zero x = false ->
  Sql.store_real x = Some x.
Proof. unfold Sql.store_real. now intros -> ->. Qed.

(** What each tool leaves in the store. *)
Lemma add_food_store (P name : string) (cal : Z) (p c f : float) (s : store) :
  snd (add_food P name cal p c f s)
  = if Sql.int64 cal
    then set_foods
           (filter (fun g => negb (String.eqb (Food.name g) name)) (foods s)
              ++ [ Food.mk (Sql.new_rowid (foods_seq s) (map Food.id (foods s)))
                     name cal (Sql.store_real p) (Sql.store_real c)
                     (Sql.store_real f) ],
            Sql.new_rowid (foods_seq s) (map Food.id (foods s)))
           s
    else s.
Proof.
  run_db. unfold Sql.insert_or_replace_food.
  now destruct (Sql.int64 cal).
Qed.

Lemma add_food_return (P name : string) (cal : Z) (p c f : float) (s : store) :
  fst (add_food P name cal p c f s)
  = if Sql.int64 cal
    then Py.Return {| AddFood.status := "ok"; AddFood.food := name;
                      AddFood.db_path := P |}
    else Py.Raise Sql.too_large.
Proof.
  run_db. unfold Sql.insert_or_replace_food.
  now destruct (Sql.int64 cal).
Qed.

Lemma set_goal_store (c : Z) (s : store) :
  snd (set_daily_calorie_goal c s)
  = if Sql.int64 c
    then set_goals
           (map (fun g => if Goal.id g =? 1 then Goal.mk (Goal.id g) c else g)
              (goals s)) s
    else s.
Proof.
  run_db. unfold Sql.update_goal. now destruct (Sql.int64 c).
Qed.


Lemma get_meals_store (today : string) (date_str : option string) (s : store) :
  snd (get_meals today date_str s) = s.
Proof. reflexivity. Qed.

Lemma today_summary_store (today : string) (s : store) :
  snd (today_summary today s) = s.
Proof.
  run_db. destruct (sum_rows _ _); [|reflexivity].
  now destruct (Sql.select_goal (goals s)).
Qed.

Lemma log_food_cases (s : store) (today name : string) (quantity : float)
    (meal : string) :
  snd (log_food today name quantity meal s) = s
  \/ exists id,
       snd (log_food today name quantity meal s)
       = set_logs
           (logs s
              ++ [ Log.mk (Sql.new_rowid (logs_seq s) (map Log.id (logs s)))
                     id (Sql.store_real quantity) today (Some meal) ],
            Sql.new_rowid (logs_seq s) (map Log.id (logs s)))
           s.
Proof.
  run_db. destruct (Sql.select_food_id name (foods s)) as [id|]; simpl.
  - right. now exists id.
  - now left.
Qed.

(** ** Row identifiers *)

Lemma max_rowid_ge (ids : list Z) (x : Z) : In x ids -> x <= Sql.max_rowid ids.
Proof.
  induction ids as [|y ids IH]; simpl; [tauto|].
  intros [->|Hin]; [lia|]. specialize (IH Hin). lia.
Qed.

Lemma new_rowid_fresh (seq : Z) (ids : list Z) (x : Z) :
  In x ids -> x < Sql.new_rowid seq ids.
Proof.
  intros Hin. apply max_rowid_ge in Hin. unfold Sql.new_rowid. lia.
Qed.

Lemma new_rowid_not_in (seq : Z) (ids : list Z) :
  ~ In (Sql.new_rowid seq ids) ids.
Proof.
  intros Hin. apply (new_rowid_fresh seq) in Hin. lia.
Qed.

Lemma NoDup_snoc {A : Type} (l : list A) (x : A) :
  NoDup l -> ~ In x l -> NoDup (l ++ [x]).
Proof.
  intros Hl Hx. apply NoDup_app; [assumption | repeat constructor; simpl; tauto |].
  intros a Ha [<-|[]]. exact (Hx Ha).
Qed.

(** Tables with a unique column. *)
Section UniqueColumn.

Variables Row Key : Type.
Variable key : Row -> Key.

(** Deleting rows keeps the column unique. *)
Lemma unique_filter (keep : Row -> bool) (rows : list Row)
    (Hnd : NoDup (map key rows)) :
  NoDup (map key (filter keep rows)).
Proof.
  induction rows as [|r rows IH]; simpl; [constructor|].
  inversion Hnd as [|? ? Hnin Hnd']; subst.
  destruct (keep r); simpl; [constructor|]; auto.
  intros Hin. apply Hnin. apply in_map_iff in Hin as (r' & Hk & Hr').
  apply filter_In in Hr' as [Hr' _]. apply in_map_iff. eauto.
Qed.

(** Two rows of the table with the same value in the column are one row. *)
Lemma unique_row (rows : list Row) (a b : Row)
    (Hnd : NoDup (map key rows)) :
  In a rows -> In b rows -> key a = key b -> a = b.
Proof.
  induction rows as [|x rows IH]; simpl; [tauto|].
  intros Ha Hb Hk. inversion Hnd as [|? ? Hnin Hnd']; subst.
  destruct Ha as [->|Ha], Hb as [->|Hb]; auto.
  - exfalso. apply Hnin. rewrite Hk. now apply in_map.
  - exfalso. apply Hnin. rewrite <- Hk. now apply in_map.
Qed.

End UniqueColumn.

(** ** The goal table *)

Lemma goals_ok_shape (t : list Goal.t) :
  goals_ok t -> t = [] \/ exists c, t = [Goal.mk 1 c].
Proof.
  intros [Hnd Hall]. destruct t as [|[i c] t]; [now left|right].
  inversion Hall as [|? ? Hi Hall']; subst. simpl in Hi; subst i.
  destruct t as [|[j c'] t]; [now exists c|].
  inversion Hall' as [|? ? Hj _]; subst. simpl in Hj; subst j.
  inversion Hnd as [|? ? Hnin _]; subst. simpl in Hnin. tauto.
Qed.

Lemma goals_ok_singleton (c : Z) : goals_ok [Goal.mk 1 c].
Proof.
  split; simpl; repeat constructor; simpl; tauto.
Qed.

Lemma insert_or_ignore_goal_empty :
  Sql.insert_or_ignore_goal 1 2000 [] = [Goal.mk 1 2000].
Proof. reflexivity. Qed.

Lemma insert_or_ignore_goal_present (c : Z) :
  Sql.insert_or_ignore_goal 1 2000 [Goal.mk 1 c] = [Goal.mk 1 c].
Proof. reflexivity. Qed.

Lemma init_db_goal (d : database) :
  file_ok d -> exists c, goal_is (init_db d) c.
Proof.
  intros Hd. unfold goal_is, init_db; simpl.
  destruct (db_goals d) as [t|] eqn:Ht.
  - destruct (goals_ok_shape t (file_goals_constraints d Hd t Ht))
      as [->|[c ->]]; [exists 2000 | exists c]; reflexivity.
  - exists 2000. reflexivity.
Qed.

Lemma init_db_on_disk (s : store) :
  init_db (on_disk s) =
  set_goals (Sql.insert_or_ignore_goal 1 2000 (goals s)) s.
Proof. reflexivity. Qed.

(** A restart leaves a store with its goal row as it is. *)
Lemma init_db_on_disk_fixed (s : store) (c : Z) :
  goal_is s c -> init_db (on_disk s) = s.
Proof.
  unfold goal_is. intros Hc. rewrite init_db_on_disk, Hc.
  destruct s; simpl in *. subst. reflexivity.
Qed.


Lemma step_goal (P : string) (s : store) (k : call) (c : Z) :
  goal_is s c -> exists c', goal_is (step P s k) c'.
Proof.
  unfold goal_is. intros Hc. destruct k; cbn [step].
  - rewrite add_food_store. destruct (Sql.int64 calories); simpl; eauto.
  - destruct (log_food_cases s today name quantity meal) as [->|[id ->]];
      simpl; eauto.
  - rewrite get_meals_store. eauto.
  - rewrite set_goal_store. destruct (Sql.int64 calories); simpl; [|eauto].
    rewrite Hc. simpl. eauto.
  - rewrite today_summary_store. eauto.
  - rewrite (init_db_on_disk_fixed s c Hc). eauto.
Qed.

Lemma run_goal (P : string) (calls : list call) :
  forall s c, goal_is s c -> exists c', goal_is (run P calls s) c'.
Proof.
  induction calls as [|k calls IH]; intros s c Hc; simpl; [eauto|].
  destruct (step_goal P s k c Hc) as [c' Hc']. eauto.
Qed.

(** ** The schema's constraints hold in every store the program reaches *)

Lemma update_goal_ok (c : Z) (t : list Goal.t) :
  goals_ok t ->
  goals_ok (map (fun g => if Goal.id g =? 1 then Goal.mk (Goal.id g) c else g)
              t).
Proof.
  intros [Hnd Hall].
  assert (Hids : forall t0 : list Goal.t,
            map Goal.id
              (map (fun g => if Goal.id g =? 1 then Goal.mk (Goal.id g) c else g)
                 t0)
            = map Goal.id t0).
  { intros t0. rewrite map_map. apply map_ext.
    intros g. destruct (Goal.id g =? 1); reflexivity. }
  split.
  - now rewrite Hids.
  - rewrite Forall_forall in *. intros g Hg.
    apply (in_map Goal.id) in Hg. rewrite Hids in Hg.
    apply in_map_iff in Hg as (g' & <- & Hg'). auto.
Qed.

Lemma insert_or_ignore_goal_ok (t : list Goal.t) :
  goals_ok t -> goals_ok (Sql.insert_or_ignore_goal 1 2000 t).
Proof.
  intros Ht. destruct (goals_ok_shape t Ht) as [->|[c ->]]; simpl.
  - apply goals_ok_singleton.
  - exact Ht.
Qed.

Lemma add_food_pk (P name : string) (cal : Z) (p c f : float) (s : store) :
  NoDup (map Food.id (foods s)) ->
  NoDup (map Food.id (foods (snd (add_food P name cal p c f s)))).
Proof.
  intros Hnd. rewrite add_food_store. destruct (Sql.int64 cal); [|assumption].
  simpl. rewrite map_app; simpl. apply NoDup_snoc.
  - now apply unique_filter.
  - intros Hin. apply in_map_iff in Hin as (r & Hr & Hin).
    apply filter_In in Hin as [Hin _].
    apply (new_rowid_not_in (foods_seq s) (map Food.id (foods s))).
    rewrite <- Hr. now apply in_map.
Qed.

Lemma add_food_unique (P name : string) (cal : Z) (p c f : float) (s : store) :
  NoDup (map Food.name (foods s)) ->
  NoDup (map Food.name (foods (snd (add_food P name cal p c f s)))).
Proof.
  intros Hnd. rewrite add_food_store. destruct (Sql.int64 cal); [|assumption].
  simpl. rewrite map_app; simpl. apply NoDup_snoc.
  - now apply unique_filter.
  - intros Hin. apply in_map_iff in Hin as (r & Hr & Hin).
    apply filter_In in Hin as [_ Hne].
    rewrite <- Hr, String.eqb_refl in Hne. discriminate.
Qed.

Lemma insert_log_pk (fid : Z) (q : float) (d m : string) (t : list Log.t * Z) :
  NoDup (map Log.id (fst t)) ->
  NoDup (map Log.id (fst (Sql.insert_log fid q d m t))).
Proof.
  intros Hnd. unfold Sql.insert_log; simpl. rewrite map_app; simpl.
  apply NoDup_snoc; [assumption | apply new_rowid_not_in].
Qed.

Lemma init_db_schema_ok (d : database) : file_ok d -> schema_ok (init_db d).
Proof.
  intros [Hf Hn Hl Hg]. unfold init_db. constructor; simpl.
  - destruct (db_foods d) as [t|]; [now apply Hf | constructor].
  - destruct (db_foods d) as [t|]; [now apply Hn | constructor].
  - destruct (db_logs d) as [[rows seq|rows seq]|] eqn:E; simpl.
    + rewrite map_map. exact (Hl _ eq_refl).
    + exact (Hl _ eq_refl).
    + constructor.
  - apply insert_or_ignore_goal_ok.
    destruct (db_goals d) as [t|]; [now apply Hg|].
    split; constructor.
Qed.

Lemma on_disk_file_ok (s : store) : schema_ok s -> file_ok (on_disk s).
Proof.
  intros [Hf Hn Hl Hg]. constructor; simpl; intros t [= <-]; assumption.
Qed.

Lemma step_schema_ok (P : string) (s : store) (k : call) :
  schema_ok s -> schema_ok (step P s k).
Proof.
  intros Hs. pose proof Hs as [Hf Hn Hl Hg]. destruct k; cbn [step].
  - constructor.
    + now apply add_food_pk.
    + now apply add_food_unique.
    + rewrite add_food_store. now destruct (Sql.int64 calories).
    + rewrite add_food_store. now destruct (Sql.int64 calories).
  - destruct (log_food_cases s today name quantity meal) as [->|[id ->]];
      [assumption|].
    constructor; simpl; try assumption.
    now apply (insert_log_pk id quantity today meal (logs s, logs_seq s)).
  - now rewrite get_meals_store.
  - rewrite set_goal_store. destruct (Sql.int64 calories); [|assumption].
    constructor; simpl; try assumption. now apply update_goal_ok.
  - now rewrite today_summary_store.
  - apply init_db_schema_ok, on_disk_file_ok, Hs.
Qed.

Lemma run_schema_ok (P : string) (calls : list call) :
  forall s, schema_ok s -> schema_ok (run P calls s).
Proof.
  induction calls as [|k calls IH]; intros s Hs; simpl; [assumption|].
  apply IH, step_schema_ok, Hs.
Qed.

Lemma fresh_file_ok : file_ok fresh_file.
Proof. constructor; simpl; discriminate. Qed.

(** ** The goal row is a singleton *)

Lemma set_daily_calorie_goal_goal (s : store) (c0 c : Z) :
  Sql.int64 c = true ->
  goal_is s c0 -> goal_is (snd (set_daily_calorie_goal c s)) c.
Proof.
  unfold goal_is. intros Hc H. rewrite set_goal_store, Hc. simpl.
  rewrite H. reflexivity.
Qed.



Lemma demo_store_ok : schema_ok demo_store.
Proof.
  constructor; [| | |apply goals_ok_singleton];
    repeat constructor; simpl; intuition (discriminate || lia).
Qed.

(** ** Looking a food up by name *)

Lemma select_food_id_none (name : string) (t : list Food.t) :
  (forall f, In f t -> Food.name f <> name) ->
  Sql.select_food_id name t = None.
Proof.
  intros Hno. unfold Sql.select_food_id.
  destruct (find _ t) as [f|] eqn:E; [|reflexivity].
  apply find_some in E as [Hin Heq]. apply String.eqb_eq in Heq.
  now destruct (Hno f Hin).
Qed.

Lemma find_by_name (t : list Food.t) (f : Food.t) :
  NoDup (map Food.name t) -> In f t ->
  find (fun g => String.eqb (Food.name g) (Food.name f)) t = Some f.
Proof.
  induction t as [|g t IH]; simpl; [tauto|].
  intros Hnd Hin. inversion Hnd as [|? ? Hnin Hnd']; subst.
  destruct (String.eqb_spec (Food.name g) (Food.name f)) as [Heq|Hne].
  - destruct Hin as [->|Hin]; [reflexivity|].
    exfalso. apply Hnin. rewrite Heq. now apply in_map.
  - destruct Hin as [->|Hin]; [congruence|]. now apply IH.
Qed.

Lemma select_food_id_some (t : list Food.t) (f : Food.t) :
  NoDup (map Food.name t) -> In f t ->
  Sql.select_food_id (Food.name f) t = Some (Food.id f).
Proof.
  intros Hnd Hin. unfold Sql.select_food_id.
  now rewrite (find_by_name t f Hnd Hin).
Qed.

(** C3, as the code has it.  [log_food] on a name that no food row
    carries returns the error result with status ["error"] and leaves the
    store, hence the log rows, as they were.  On the name of a food row it
    returns status ["ok"] with the name, quantity and meal given, and
    appends exactly one log row, under a fresh id, that references that
    food's id and carries the current date, the meal, and the quantity as
    the REAL column stores it: the quantity given when that is neither NaN
    nor a zero, NULL for NaN, [0.0] for a zero of either sign.  The other
    tables are untouched. *)
Theorem log_food_guard (s : store) (today name : string) (quantity : float)
    (meal : string) :
  schema_ok s ->
  ((forall f, In f (foods s) -> Food.name f <> name) ->
   log_food today name quantity meal s
   = (LogFood.Error "error" "Food not found", s))
  /\ (forall f, In f (foods s) -> Food.name f = name ->
      exists rowid,
        ~ In rowid (map Log.id (logs s))
        /\ fst (log_food today name quantity meal s)
           = LogFood.Logged "ok" name quantity meal
        /\ logs (snd (log_food today name quantity meal s))
           = logs s ++ [ {| Log.id := rowid; Log.food_id := Food.id f;
                            Log.quantity := Sql.store_real quantity;
                            Log.log_date := today;
                            Log.meal := Some meal |} ]
        /\ foods (snd (log_food today name quantity meal s)) = foods s
        /\ goals (snd (log_food today name quantity meal s)) = goals s)
  /\ (PrimFloat.is_nan quantity = false ->
      PrimFloat.is_zero quantity = false ->
      Sql.store_real quantity = Some quantity)
  /\ (PrimFloat.is_nan quantity = true -> Sql.store_real quantity = None)
  /\ (PrimFloat.is_nan quantity = false ->
      PrimFloat.is_zero quantity = true ->
      Sql.store_real quantity = Some 0%float).
Proof.
  intros Hs. split; [|split; [|split; [|split]]].
  - intros Hno. run_db. now rewrite (select_food_id_none name _ Hno).
  - intros f Hin <-.
    exists (Sql.new_rowid (logs_seq s) (map Log.id (logs s))).
    split; [apply new_rowid_not_in|].
    run_db. rewrite (select_food_id_some _ f (foods_name_unique s Hs) Hin).
    simpl. auto.
  - apply store_real_same.
  - unfold Sql.store_real. now intros ->.
  - unfold Sql.store_real. now intros -> ->.
Qed.

Lemma log_food_guard_witness :
  log_food "2024-01-03" "pear" 1 "dinner" demo_store
  = (LogFood.Error "error" "Food not found", demo_store)
  /\ exists rowid,
       logs (snd (log_food "2024-01-03" "egg" 1.5 "dinner" demo_store))
       = logs demo_store
         ++ [ Log.mk rowid 2 (Some 1.5%float) "2024-01-03" (Some "dinner") ].
Proof.
  destruct (log_food_guard demo_store "2024-01-03" "pear" 1 "dinner"
              demo_store_ok) as [Hmiss _].
  destruct (log_food_guard demo_store "2024-01-03" "egg" 1.5 "dinner"
              demo_store_ok) as (_ & Hhit & Hsame & _).
  split.
  - apply Hmiss. simpl. intros f [<-|[<-|[]]]; discriminate.
  - destruct (Hhit (Food.mk 2 "egg" 70 (Some 6%float) (Some 0.5%float)
                      (Some 5%float)))
      as (rowid & _ & _ & Hlogs & _); [simpl; auto | reflexivity |].
    exists rowid. rewrite Hlogs, Hsame; reflexivity.
Defined.

(** The two zeros are different floats. *)
Lemma neg_zero_differs : Some 0%float <> Some (-0)%float.
Proof.
  intros H.
  apply (f_equal (fun o => match o with
                           | Some x => PrimFloat.ltb (1 / x) 0
                           | None => false
                           end)) in H.
  vm_compute in H. discriminate.
Qed.

(** C3 fails as stated: logged with the quantity NaN, the row holds NULL,
    and logged with [-0.0] it holds [0.0]; neither is the quantity
    given. *)
Lemma log_food_quantity_not_kept :
  let s := snd (add_food "/tmp/nutrition.db" "apple" 95 0.5 25 0.25
                  (init_db fresh_file)) in
  log_food "2024-01-01" "apple" nan "snack" s
  = (LogFood.Logged "ok" "apple" nan "snack",
     set_logs ([ Log.mk 1 1 None "2024-01-01" (Some "snack") ], 1) s)
  /\ logs (snd (log_food "2024-01-01" "apple" (-0) "snack" s))
     = [ Log.mk 1 1 (Some 0%float) "2024-01-01" (Some "snack") ]
  /\ Some 0%float <> Some (-0)%float.
Proof.
  split; [reflexivity|]. split; [reflexivity|]. exact neg_zero_differs.
Qed.

(** ** The join, row by row *)

Lemma filter_flat_map {A B : Type} (p : B -> bool) (q : A -> bool)
    (f : A -> list B) (l : list A) :
  (forall a b, In b (f a) -> p b = q a) ->
  filter p (flat_map f l) = flat_map f (filter q l).
Proof.
  intros Hpq. induction l as [|a l IH]; simpl; [reflexivity|].
  rewrite filter_app, IH.
  assert (Ha : filter p (f a) = if q a then f a else []).
  { specialize (Hpq a). induction (f a) as [|b bs IHb]; simpl.
    - now destruct (q a).
    - rewrite (Hpq b (or_introl eq_refl)).
      rewrite IHb by (intros b' Hb'; apply Hpq; now right).
      now destruct (q a). }
  rewrite Ha. now destruct (q a).
Qed.

Lemma filter_by_key (fs : list Food.t) (k : Z) :
  NoDup (map Food.id fs) ->
  filter (fun f => k =? Food.id f) fs =
  match find (fun f => Food.id f =? k) fs with
  | Some f => [f]
  | None => []
  end.
Proof.
  induction fs as [|g fs IH]; simpl; [reflexivity|].
  intros Hnd. inversion Hnd as [|? ? Hnin Hnd']; subst.
  rewrite (Z.eqb_sym k). destruct (Z.eqb_spec (Food.id g) k) as [Heq|Hne].
  - f_equal. rewrite IH by assumption.
    destruct (find _ fs) as [h|] eqn:E; [|reflexivity].
    apply find_some in E as [Hin Hh]. apply Z.eqb_eq in Hh.
    exfalso. apply Hnin. rewrite Heq, <- Hh. now apply in_map.
  - now apply IH.
Qed.

(** The query of both aggregations returns the entries of the date. *)
Lemma join_on_date_entries (s : store) (d : string) :
  schema_ok s -> Sql.join_on_date (logs s) (foods s) d = entries_on s d.
Proof.
  intros Hs. unfold Sql.join_on_date, entries_on.
  rewrite (filter_flat_map _ (fun l => String.eqb (Log.log_date l) d)).
  - apply flat_map_ext. intros l. unfold food_of.
    rewrite (filter_by_key (foods s) (Log.food_id l) (foods_pk s Hs)).
    now destruct (find _ (foods s)).
  - intros l [l' f] Hin. apply in_map_iff in Hin as (f' & [= <- <-] & _).
    reflexivity.
Qed.

(** Which pairs [entries_on] holds. *)
Lemma in_entries_on (s : store) (d : string) (l : Log.t) (f : Food.t) :
  schema_ok s ->
  In (l, f) (entries_on s d) <->
  In l (logs s) /\ Log.log_date l = d
  /\ In f (foods s) /\ Food.id f = Log.food_id l.
Proof.
  intros Hs. rewrite <- (join_on_date_entries s d Hs).
  unfold Sql.join_on_date. rewrite filter_In, in_flat_map. simpl.
  rewrite String.eqb_eq. split.
  - intros [(l' & Hl' & Hin) Hd].
    apply in_map_iff in Hin as (f' & [= -> ->] & Hf).
    apply filter_In in Hf as [Hf Hk]. apply Z.eqb_eq in Hk. auto.
  - intros (Hl & Hd & Hf & Hk). split; [|assumption].
    exists l. split; [assumption|]. apply in_map, filter_In.
    split; [assumption|]. apply Z.eqb_eq. now symmetry.
Qed.

(** ** The loop of [today_summary] *)

Lemma select_goal_is (s : store) (g : Z) :
  goal_is s g -> Sql.select_goal (goals s) = Some g.
Proof. unfold goal_is. intros ->. reflexivity. Qed.

Lemma entries_on_none (s : store) (d : string) :
  (forall l, In l (logs s) -> Log.log_date l <> d) -> entries_on s d = [].
Proof.
  intros Hno. unfold entries_on.
  assert (E : filter (fun l => String.eqb (Log.log_date l) d) (logs s) = []).
  { induction (logs s) as [|l ls IH]; simpl; [reflexivity|].
    destruct (String.eqb_spec (Log.log_date l) d) as [Heq|_].
    - destruct (Hno l (or_introl eq_refl) Heq).
    - apply IH. intros l' Hl'. apply Hno. now right. }
  now rewrite E.
Qed.

Lemma total_of_fold (field : Food.t -> option Py.num)
    (rows : list (Log.t * Food.t)) :
  total_of field rows = fold_left (add_product field) rows (Some (Py.Int 0)).
Proof. reflexivity. Qed.

(** A pass of the loop body on a complete row adds the four products. *)
Lemma accumulate_complete (t : Totals.t) (r : Log.t * Food.t) :
  complete r = true ->
  exists t',
    accumulate t r = Py.Return t'
    /\ add_product calories_of (Some (Totals.calories t)) r
       = Some (Totals.calories t')
    /\ add_product protein_of (Some (Totals.protein t)) r
       = Some (Totals.protein t')
    /\ add_product carbs_of (Some (Totals.carbs t)) r
       = Some (Totals.carbs t')
    /\ add_product fat_of (Some (Totals.fat t)) r = Some (Totals.fat t').
Proof.
  destruct r as [l f]. unfold complete, accumulate, add_product, calories_of,
    protein_of, carbs_of, fat_of. simpl.
  destruct (Log.quantity l), (Food.protein f), (Food.carbs f), (Food.fat f);
    try discriminate.
  intros _. simpl. eexists. repeat split.
Qed.

(** On a row with a NULL it raises [TypeError]. *)
Lemma accumulate_incomplete (t : Totals.t) (r : Log.t * Food.t) :
  complete r = false -> exists msg, accumulate t r = Py.Raise (Py.TypeError msg).
Proof.
  destruct r as [l f]. unfold complete, accumulate. simpl.
  destruct (Log.quantity l), (Food.protein f), (Food.carbs f), (Food.fat f);
    try discriminate; intros _; simpl; eexists; reflexivity.
Qed.

Lemma sum_rows_complete (rows : list (Log.t * Food.t)) :
  forallb complete rows = true ->
  forall t,
    exists t',
      sum_rows rows t = Py.Return t'
      /\ fold_left (add_product calories_of) rows (Some (Totals.calories t))
         = Some (Totals.calories t')
      /\ fold_left (add_product protein_of) rows (Some (Totals.protein t))
         = Some (Totals.protein t')
      /\ fold_left (add_product carbs_of) rows (Some (Totals.carbs t))
         = Some (Totals.carbs t')
      /\ fold_left (add_product fat_of) rows (Some (Totals.fat t))
         = Some (Totals.fat t').
Proof.
  induction rows as [|r rows IH]; intros Hall t;
    cbn [sum_rows fold_left forallb] in *.
  - exists t. repeat split.
  - apply andb_true_iff in Hall as [Hr Hrows].
    destruct (accumulate_complete t r Hr) as (t1 & -> & -> & -> & -> & ->).
    cbn [Py.and_then]. exact (IH Hrows t1).
Qed.

Lemma sum_rows_incomplete (rows : list (Log.t * Food.t)) :
  forallb complete rows = false ->
  forall t, exists msg, sum_rows rows t = Py.Raise (Py.TypeError msg).
Proof.
  induction rows as [|r rows IH]; intros Hall t;
    cbn [sum_rows forallb] in *; [discriminate|].
  destruct (complete r) eqn:Hr.
  - destruct (accumulate_complete t r Hr) as (t1 & -> & _).
    cbn [Py.and_then]. exact (IH Hall t1).
  - destruct (accumulate_incomplete t r Hr) as [msg ->].
    cbn [Py.and_then]. eauto.
Qed.

Lemma today_summary_run (s : store) (today : string) :
  schema_ok s ->
  today_summary today s
  = (match sum_rows (entries_on s today) totals_zero with
     | Py.Raise e => Py.Raise e
     | Py.Return totals =>
         match Sql.select_goal (goals s) with
         | None =>
             Py.Raise (Py.TypeError "'NoneType' object is not subscriptable")
         | Some goal =>
             Py.Return
               {| Summary.totals := totals;
                  Summary.goal := goal;
                  Summary.remaining_calories :=
                    Py.sub (Py.Int goal) (Totals.calories totals) |}
         end
     end, s).
Proof.
  intros Hs. run_db. rewrite (join_on_date_entries s today Hs).
  destruct (sum_rows _ _); [|reflexivity].
  now destruct (Sql.select_goal (goals s)).
Qed.

(** C4, as the code has it.  In a store that meets the schema's
    constraints and holds the goal row, when no entry of the current date
    has a NULL quantity or a NULL macro value, [today_summary] returns,
    for each of the four fields, the sum of [food field * quantity] over
    the log rows of the current date, each joined to the food it
    references, and [remaining_calories] is [goal - totals.calories] as
    computed, with no clamping.  The rows summed are exactly the pairs of
    a log row of that date and the food with its [food_id].  When no row
    is summed the four totals are [0] and [remaining_calories] is the
    goal.  When an entry of the current date does have a NULL quantity or
    macro value, [today_summary] raises [TypeError].  The store is left as
    it was. *)
Theorem today_summary_totals (s : store) (today : string) (goal : Z) :
  schema_ok s -> goal_is s goal ->
  let rows := entries_on s today in
  (forall l f,
     In (l, f) rows <->
     In l (logs s) /\ Log.log_date l = today
     /\ In f (foods s) /\ Food.id f = Log.food_id l)
  /\ (forallb complete rows = true ->
      exists calories protein carbs fat,
        total_of calories_of rows = Some calories
        /\ total_of protein_of rows = Some protein
        /\ total_of carbs_of rows = Some carbs
        /\ total_of fat_of rows = Some fat
        /\ today_summary today s
           = (Py.Return
                {| Summary.totals :=
                     {| Totals.calories := calories;
                        Totals.protein := protein;
                        Totals.carbs := carbs;
                        Totals.fat := fat |};
                   Summary.goal := goal;
                   Summary.remaining_calories :=
                     Py.sub (Py.Int goal) calories |},
              s))
  /\ (rows = [] ->
      fst (today_summary today s)
      = Py.Return
          {| Summary.totals :=
               {| Totals.calories := Py.Int 0; Totals.protein := Py.Int 0;
                  Totals.carbs := Py.Int 0; Totals.fat := Py.Int 0 |};
             Summary.goal := goal;
             Summary.remaining_calories := Py.Int goal |})
  /\ (forallb complete rows = false ->
      exists msg, today_summary today s = (Py.Raise (Py.TypeError msg), s)).
Proof.
  intros Hs Hg rows. split; [|split; [|split]].
  - intros l f. apply in_entries_on, Hs.
  - intros Hall.
    destruct (sum_rows_complete rows Hall totals_zero)
      as (t & Hsum & Hc & Hp & Hcb & Hf).
    exists (Totals.calories t), (Totals.protein t), (Totals.carbs t),
      (Totals.fat t).
    rewrite !total_of_fold. repeat (split; [assumption|]).
    rewrite (today_summary_run s today Hs). fold rows.
    rewrite Hsum, (select_goal_is s goal Hg). now destruct t.
  - intros Hno. rewrite (today_summary_run s today Hs). fold rows.
    rewrite Hno, (select_goal_is s goal Hg). simpl. now rewrite Z.sub_0_r.
  - intros Hall. rewrite (today_summary_run s today Hs). fold rows.
    destruct (sum_rows_incomplete rows Hall totals_zero) as [msg ->]. eauto.
Qed.

Lemma today_summary_totals_witness :
  fst (today_summary "2024-01-01" demo_store)
  = Py.Return
      {| Summary.totals :=
           {| Totals.calories := Py.Float 295; Totals.protein := Py.Float 10;
              Totals.carbs := Py.Float 50.75; Totals.fat := Py.Float 8 |};
         Summary.goal := 2000;
         Summary.remaining_calories := Py.Float 1705 |}
  /\ fst (today_summary "2024-02-29" demo_store)
     = Py.Return
         {| Summary.totals :=
              {| Totals.calories := Py.Int 0; Totals.protein := Py.Int 0;
                 Totals.carbs := Py.Int 0; Totals.fat := Py.Int 0 |};
            Summary.goal := 2000;
            Summary.remaining_calories := Py.Int 2000 |}.
Proof.
  split.
  - destruct (today_summary_totals demo_store "2024-01-01" 2000
                demo_store_ok eq_refl) as (_ & Hsum & _).
    destruct (Hsum eq_refl) as (c & p & cb & f & Hc & Hp & Hcb & Hf & Hrun).
    rewrite Hrun. simpl.
    vm_compute in Hc, Hp, Hcb, Hf.
    injection Hc as <-. injection Hp as <-. injection Hcb as <-.
    injection Hf as <-. reflexivity.
  - destruct (today_summary_totals demo_store "2024-02-29" 2000
                demo_store_ok eq_refl) as (_ & _ & Hzero & _).
    apply Hzero, entries_on_none. simpl.
    intros l [<-|[<-|[<-|[]]]]; discriminate.
Defined.

(** [remaining_calories] goes below zero when the day's calories pass the
    goal. *)
Example remaining_calories_negative :
  let s := snd (set_daily_calorie_goal 100 demo_store) in
  fst (today_summary "2024-01-01" s)
  = Py.Return
      {| Summary.totals :=
           {| Totals.calories := Py.Float 295; Totals.protein := Py.Float 10;
              Totals.carbs := Py.Float 50.75; Totals.fat := Py.Float 8 |};
         Summary.goal := 100;
         Summary.remaining_calories := Py.Float (-195) |}.
Proof. reflexivity. Qed.

(** C4 fails as stated: after an entry is logged with the quantity NaN,
    which the row holds as NULL, [today_summary] raises [TypeError] on the
    first product and returns no totals. *)
Lemma today_summary_null_quantity :
  let s1 := snd (add_food "/tmp/nutrition.db" "apple" 95 0.5 25 0.25
                   (init_db fresh_file)) in
  let s2 := snd (log_food "2024-01-01" "apple" nan "snack" s1) in
  logs s2 = [ Log.mk 1 1 None "2024-01-01" (Some "snack") ]
  /\ today_summary "2024-01-01" s2
     = (Py.Raise
          (Py.TypeError
             "unsupported operand type(s) for *: 'int' and 'NoneType'"),
        s2).
Proof. split; reflexivity. Qed.

(** ** Grouping by meal *)

Lemma in_first_occurrences (ks : list string) (k : string) :
  In k (first_occurrences ks) <-> In k ks.
Proof.
  induction ks as [|x ks IH]; simpl; [tauto|].
  rewrite filter_In, IH, negb_true_iff, String.eqb_neq.
  destruct (string_dec x k) as [->|Hne]; [tauto|].
  split; [tauto|]. intros [Hx|Hin]; [tauto|]. right. split; congruence.
Qed.

Lemma NoDup_first_occurrences (ks : list string) : NoDup (first_occurrences ks).
Proof.
  induction ks as [|x ks IH]; simpl; constructor.
  - rewrite filter_In, String.eqb_refl. simpl. intros [_ [=]].
  - now apply NoDup_filter.
Qed.

Lemma first_occurrences_snoc_new (ks : list string) (k : string) :
  ~ In k ks -> first_occurrences (ks ++ [k]) = first_occurrences ks ++ [k].
Proof.
  induction ks as [|x ks IH]; simpl; [reflexivity|].
  intros Hin. rewrite IH by tauto. rewrite filter_app. simpl.
  destruct (String.eqb_spec k x) as [->|_]; [tauto|reflexivity].
Qed.

Lemma first_occurrences_snoc_old (ks : list string) (k : string) :
  In k ks -> first_occurrences (ks ++ [k]) = first_occurrences ks.
Proof.
  induction ks as [|x ks IH]; simpl; [tauto|].
  intros Hin. f_equal. destruct (in_dec string_dec k ks) as [Hk|Hk].
  - now rewrite IH.
  - destruct Hin as [->|Hin]; [|contradiction].
    rewrite first_occurrences_snoc_new, filter_app by assumption. simpl.
    rewrite String.eqb_refl. simpl. apply app_nil_r.
Qed.

Lemma view_outcome (r : Log.t * Food.t) :
  view r = match Log.quantity (fst r) with
           | Some q => Py.Return (entry_view r q)
           | None => Py.Raise no_quantity
           end.
Proof. destruct r as [l f]. simpl. now destruct (Log.quantity l). Qed.

Lemma group_of_snoc (k : string) (rows : list (Log.t * Food.t))
    (r : Log.t * Food.t) (q : float) :
  Log.quantity (fst r) = Some q ->
  group_of k (rows ++ [r]) =
  group_of k rows ++ (if String.eqb (meal_name r) k then [entry_view r q] else []).
Proof.
  intros Hq. unfold group_of, views_of. rewrite filter_app, flat_map_app. simpl.
  destruct (String.eqb (meal_name r) k); simpl; [now rewrite Hq|reflexivity].
Qed.

Lemma group_of_absent (k : string) (rows : list (Log.t * Food.t)) :
  ~ In k (map meal_name rows) -> group_of k rows = [].
Proof.
  unfold group_of. induction rows as [|r rows IH]; simpl; [reflexivity|].
  intros Hin. destruct (String.eqb_spec (meal_name r) k) as [Heq|_]; [tauto|].
  apply IH. tauto.
Qed.

Lemma group_of_present (k : string) (rows : list (Log.t * Food.t)) :
  forallb has_quantity rows = true ->
  In k (map meal_name rows) -> group_of k rows <> [].
Proof.
  unfold group_of. induction rows as [|r rows IH]; simpl; [tauto|].
  intros Hall. apply andb_true_iff in Hall as [Hr Hall].
  destruct (String.eqb_spec (meal_name r) k) as [Heq|Hne].
  - intros _. unfold has_quantity in Hr. simpl.
    destruct (Log.quantity (fst r)); [discriminate|discriminate].
  - intros [Hk|Hin]; [contradiction|]. now apply IH.
Qed.

Section Setdefault.

Variable V : Type.
Variable G : string -> list V.

Lemma setdefault_append_old (k : string) (v : V) (keys : list string) :
  NoDup keys -> In k keys ->
  setdefault_append k v (map (fun k' => (k', G k')) keys) =
  map (fun k' => (k', G k' ++ (if String.eqb k k' then [v] else []))) keys.
Proof.
  induction keys as [|x keys IH]; simpl; [tauto|].
  intros Hnd Hin. inversion Hnd as [|? ? Hnin Hnd']; subst.
  rewrite (String.eqb_sym k x).
  destruct (String.eqb_spec x k) as [->|Hne].
  - f_equal. apply map_ext_in. intros k' Hk'.
    destruct (String.eqb_spec k k') as [->|_]; [contradiction|].
    now rewrite app_nil_r.
  - rewrite app_nil_r. f_equal. apply IH; [assumption|].
    destruct Hin; [contradiction|assumption].
Qed.

Lemma setdefault_append_new (k : string) (v : V) (keys : list string) :
  ~ In k keys ->
  setdefault_append k v (map (fun k' => (k', G k')) keys) =
  map (fun k' => (k', G k')) keys ++ [(k, [v])].
Proof.
  induction keys as [|x keys IH]; simpl; [reflexivity|].
  intros Hin. destruct (String.eqb_spec x k) as [->|_]; [tauto|].
  f_equal. apply IH. tauto.
Qed.

End Setdefault.

Lemma groups_by_meal_snoc (rows : list (Log.t * Food.t)) (r : Log.t * Food.t)
    (q : float) :
  Log.quantity (fst r) = Some q ->
  groups_by_meal (rows ++ [r]) =
  setdefault_append (meal_name r) (entry_view r q) (groups_by_meal rows).
Proof.
  intros Hq. unfold groups_by_meal. rewrite map_app. simpl.
  destruct (in_dec string_dec (meal_name r) (map meal_name rows)) as [Hin|Hnin].
  - rewrite first_occurrences_snoc_old by assumption.
    rewrite (setdefault_append_old _ (fun k => group_of k rows)).
    + apply map_ext. intros k. rewrite (group_of_snoc k rows r q Hq).
      reflexivity.
    + apply NoDup_first_occurrences.
    + now apply in_first_occurrences.
  - rewrite first_occurrences_snoc_new by assumption.
    rewrite (setdefault_append_new _ (fun k => group_of k rows))
      by now rewrite in_first_occurrences.
    rewrite map_app. simpl. f_equal.
    + apply map_ext_in. intros k Hk. rewrite (group_of_snoc k rows r q Hq).
      rewrite in_first_occurrences in Hk.
      destruct (String.eqb_spec (meal_name r) k) as [Heq|_];
        [now subst k | now rewrite app_nil_r].
    + rewrite (group_of_snoc _ rows r q Hq), String.eqb_refl,
        group_of_absent by assumption.
      reflexivity.
Qed.

(** The loop, one row further. *)
Lemma group_rows_snoc (rows : list (Log.t * Food.t)) (r : Log.t * Food.t) :
  forall meals,
    group_rows (rows ++ [r]) meals
    = Py.and_then (group_rows rows meals)
        (fun m =>
           Py.and_then (view r)
             (fun v => Py.Return (setdefault_append (meal_name r) v m))).
Proof.
  induction rows as [|x rows IH]; intros meals; cbn [group_rows app].
  - cbn [Py.and_then]. now destruct (view r).
  - destruct (view x) as [v|e]; cbn [Py.and_then]; [apply IH|reflexivity].
Qed.

(** The loop of [get_meals] builds the groups of its rows. *)
Lemma group_rows_groups (rows : list (Log.t * Food.t)) :
  forallb has_quantity rows = true ->
  group_rows rows [] = Py.Return (groups_by_meal rows).
Proof.
  induction rows as [|r rows IH] using rev_ind; [reflexivity|].
  rewrite forallb_app. intros Hall.
  apply andb_true_iff in Hall as [Hrows Hr]. simpl in Hr.
  rewrite andb_true_r in Hr. unfold has_quantity in Hr.
  destruct (Log.quantity (fst r)) as [q|] eqn:Hq; [|discriminate].
  rewrite group_rows_snoc, (IH Hrows), view_outcome, Hq. cbn [Py.and_then].
  now rewrite (groups_by_meal_snoc rows r q Hq).
Qed.

(** It raises at the first row whose quantity is NULL. *)
Lemma group_rows_raises (rows : list (Log.t * Food.t)) :
  forallb has_quantity rows = false ->
  forall meals, group_rows rows meals = Py.Raise no_quantity.
Proof.
  induction rows as [|r rows IH]; cbn [forallb group_rows];
    [discriminate|].
  intros Hall meals. rewrite view_outcome. unfold has_quantity in Hall.
  destruct (Log.quantity (fst r)); cbn [Py.and_then];
    [now apply IH | reflexivity].
Qed.

Lemma get_meals_run (s : store) (today : string) (date_str : option string) :
  schema_ok s ->
  fst (get_meals today date_str s)
  = meals_of (query_date today date_str)
      (entries_on s (query_date today date_str)).
Proof.
  intros Hs. run_db. rewrite (join_on_date_entries s _ Hs). unfold meals_of.
  destruct (forallb has_quantity _) eqn:Hall.
  - now rewrite (group_rows_groups _ Hall).
  - now rewrite (group_rows_raises _ Hall).
Qed.

(** When [get_meals] returns, it returns the groups of the date's
    entries, none of which lacks its quantity. *)
Lemma get_meals_returned (s : store) (today : string)
    (date_str : option string) (r : GetMeals.result) :
  schema_ok s ->
  fst (get_meals today date_str s) = Py.Return r ->
  forallb has_quantity (entries_on s (query_date today date_str)) = true
  /\ r = {| GetMeals.date := query_date today date_str;
            GetMeals.meals :=
              groups_by_meal (entries_on s (query_date today date_str)) |}.
Proof.
  intros Hs. rewrite (get_meals_run s today date_str Hs). unfold meals_of.
  destruct (forallb has_quantity _); [|discriminate].
  intros [= <-]. now split.
Qed.

Lemma in_groups_by_meal (rows : list (Log.t * Food.t)) (k : string)
    (vs : list View.t) :
  In (k, vs) (groups_by_meal rows) <->
  In k (map meal_name rows) /\ vs = group_of k rows.
Proof.
  unfold groups_by_meal. rewrite in_map_iff. split.
  - intros (k' & [= -> <-] & Hk). now rewrite in_first_occurrences in Hk.
  - intros [Hk ->]. exists k. now rewrite in_first_occurrences.
Qed.

(** Where a view of a group comes from. *)
Lemma in_group_of (k : string) (rows : list (Log.t * Food.t)) (v : View.t) :
  In v (group_of k rows) <->
  exists e q,
    In e rows /\ meal_name e = k /\ Log.quantity (fst e) = Some q
    /\ v = entry_view e q.
Proof.
  unfold group_of, views_of. rewrite in_flat_map. split.
  - intros (e & He & Hv). apply filter_In in He as [He Hk].
    apply String.eqb_eq in Hk.
    destruct (Log.quantity (fst e)) as [q|] eqn:Hq; [|destruct Hv].
    destruct Hv as [<-|[]]. exists e, q. auto.
  - intros (e & q & He & Hk & Hq & ->). exists e. split.
    + apply filter_In. split; [assumption|]. now apply String.eqb_eq.
    + rewrite Hq. now left.
Qed.

(** C5, as the code has it.  In a store that meets the schema's
    constraints, when no entry of the queried date has a NULL quantity,
    [get_meals] returns; it reports the date it queried and groups the
    entries of that date, which are exactly the pairs of a log row of the
    date and the food with its [food_id].  A row's label is its [meal],
    or ["unspecified"] when that is NULL or empty.  The keys of [meals]
    are the labels that occur, each once, in order of first occurrence;
    the group under a key is never empty and holds the views of exactly
    the entries with that label, in row order; every entry's view is in
    the group of its label; and each view carries its entry's log id,
    food name, quantity and per-serving values, with [calories_total]
    equal to [calories_per_serving] times [quantity].  When an entry of
    the queried date does have a NULL quantity, [get_meals] raises
    [TypeError].  Either way the store is left as it was. *)
Theorem get_meals_groups (s : store) (today : string)
    (date_str : option string) :
  schema_ok s ->
  let d := query_date today date_str in
  let rows := entries_on s d in
  (forallb has_quantity rows = false ->
   get_meals today date_str s = (Py.Raise no_quantity, s))
  /\
  (forallb has_quantity rows = true ->
  exists r,
    get_meals today date_str s = (Py.Return r, s)
    /\ GetMeals.date r = d
    /\ (forall l f,
          In (l, f) rows <->
          In l (logs s) /\ Log.log_date l = d
          /\ In f (foods s) /\ Food.id f = Log.food_id l)
    /\ (forall e,
          meal_name e = match Log.meal (fst e) with
                        | None => "unspecified"
                        | Some "" => "unspecified"
                        | Some m => m
                        end)
    /\ map fst (GetMeals.meals r) = first_occurrences (map meal_name rows)
    /\ NoDup (map fst (GetMeals.meals r))
    /\ (forall k vs,
          In (k, vs) (GetMeals.meals r) ->
          vs <> []
          /\ vs = views_of (filter (fun e => String.eqb (meal_name e) k) rows))
    /\ (forall e q,
          In e rows -> Log.quantity (fst e) = Some q ->
          exists vs,
            In (meal_name e, vs) (GetMeals.meals r)
            /\ In {| View.log_id := Log.id (fst e);
                     View.food := Food.name (snd e);
                     View.quantity := Some q;
                     View.calories_per_serving := Food.calories (snd e);
                     View.protein_per_serving := Food.protein (snd e);
                     View.carbs_per_serving := Food.carbs (snd e);
                     View.fat_per_serving := Food.fat (snd e);
                     View.calories_total :=
                       Py.mul (Py.Int (Food.calories (snd e))) (Py.Float q) |}
                 vs)
    /\ (forall k vs v,
          In (k, vs) (GetMeals.meals r) -> In v vs ->
          exists e q,
            In e rows /\ meal_name e = k
            /\ View.log_id v = Log.id (fst e)
            /\ View.food v = Food.name (snd e)
            /\ Log.quantity (fst e) = Some q
            /\ View.quantity v = Some q
            /\ View.calories_per_serving v = Food.calories (snd e)
            /\ View.protein_per_serving v = Food.protein (snd e)
            /\ View.carbs_per_serving v = Food.carbs (snd e)
            /\ View.fat_per_serving v = Food.fat (snd e)
            /\ View.calories_total v
               = Py.mul (Py.Int (View.calories_per_serving v)) (Py.Float q))).
Proof.
  intros Hs d rows.
  assert (Hpair : get_meals today date_str s
                  = (meals_of d rows, s)).
  { rewrite (surjective_pairing (get_meals today date_str s)),
      get_meals_store, (get_meals_run s today date_str Hs).
    reflexivity. }
  unfold meals_of in Hpair. split; intros Hall; rewrite Hall in Hpair;
    [exact Hpair|].
  exists {| GetMeals.date := d; GetMeals.meals := groups_by_meal rows |}.
  pose proof Hpair as Hrun.
  cbn [GetMeals.date GetMeals.meals].
  assert (Hkeys : map fst (groups_by_meal rows)
                  = first_occurrences (map meal_name rows)).
  { unfold groups_by_meal. rewrite map_map. simpl. apply map_id. }
  split; [exact Hrun|].
  split; [reflexivity|].
  split; [intros l f; now apply in_entries_on|].
  split; [intros e; reflexivity|].
  split; [exact Hkeys|].
  split; [rewrite Hkeys; apply NoDup_first_occurrences|].
  split; [|split].
  - intros k vs Hin. apply in_groups_by_meal in Hin as [Hk ->].
    split; [now apply group_of_present | reflexivity].
  - intros e q He Hq. exists (group_of (meal_name e) rows). split.
    + apply in_groups_by_meal. split; [now apply in_map|reflexivity].
    + apply in_group_of. exists e, q. repeat split; assumption.
  - intros k vs v Hin Hv. apply in_groups_by_meal in Hin as [_ ->].
    apply in_group_of in Hv as (e & q & He & Hk & Hq & ->).
    exists e, q. repeat split; assumption.
Qed.

Lemma get_meals_groups_witness :
  exists r,
    fst (get_meals "2024-01-02" (Some "2024-01-01") demo_store) = Py.Return r
    /\ map fst (GetMeals.meals r) = [ "breakfast"; "lunch" ].
Proof.
  destruct (proj2 (get_meals_groups demo_store "2024-01-02"
                     (Some "2024-01-01") demo_store_ok) eq_refl)
    as (r & Hrun & _ & _ & _ & Hkeys & _).
  exists r. split; [exact (f_equal fst Hrun)|]. rewrite Hkeys. reflexivity.
Defined.

(** C5 fails as stated: after an entry is logged with the quantity NaN,
    which the row holds as NULL, [get_meals] for that date raises
    [TypeError] and returns no groups. *)
Lemma get_meals_null_quantity :
  let s1 := snd (add_food "/tmp/nutrition.db" "apple" 95 0.5 25 0.25
                   (init_db fresh_file)) in
  let s2 := snd (log_food "2024-01-01" "apple" nan "snack" s1) in
  logs s2 = [ Log.mk 1 1 None "2024-01-01" (Some "snack") ]
  /\ get_meals "2024-01-01" (Some "2024-01-01") s2
     = (Py.Raise
          (Py.TypeError
             "unsupported operand type(s) for *: 'int' and 'NoneType'"),
        s2).
Proof. split; reflexivity. Qed.

(** ** Scoping by date *)

Lemma join_on_date_skip (before after : list Log.t) (e : Log.t)
    (fs : list Food.t) (d : string) :
  Log.log_date e <> d ->
  Sql.join_on_date (before ++ e :: after) fs d
  = Sql.join_on_date (before ++ after) fs d.
Proof.
  intros Hne. unfold Sql.join_on_date.
  rewrite !flat_map_app, !filter_app. simpl. rewrite filter_app.
  f_equal. 
  assert (E : forall ps : list Food.t,
             filter (fun lf => String.eqb (Log.log_date (fst lf)) d)
               (map (pair e) ps) = []).
  { induction ps as [|p ps IH]; simpl; [reflexivity|].
    destruct (String.eqb_spec (Log.log_date e) d); [contradiction|exact IH]. }
  now rewrite E.
Qed.

(** Both queries depend on the store through the joined rows of the date,
    and [today_summary] through the goal row as well. *)
Lemma get_meals_same (s s' : store) (today : string)
    (date_str : option string) :
  Sql.join_on_date (logs s) (foods s) (query_date today date_str)
  = Sql.join_on_date (logs s') (foods s') (query_date today date_str) ->
  fst (get_meals today date_str s) = fst (get_meals today date_str s').
Proof. run_db. now intros ->. Qed.

Lemma today_summary_same (s s' : store) (today : string) :
  Sql.join_on_date (logs s) (foods s) today
  = Sql.join_on_date (logs s') (foods s') today ->
  goals s = goals s' ->
  fst (today_summary today s) = fst (today_summary today s').
Proof.
  run_db. intros -> Hg. destruct (sum_rows _ _); simpl; [|reflexivity].
  rewrite Hg. now destruct (Sql.select_goal (goals s')).
Qed.

(** C7.  A log row whose [log_date] differs from the date [get_meals]
    queries has no view in any group of the result, and the result is the
    one the store without that row gives; a log row whose [log_date]
    differs from the current date leaves [today_summary] as it is without
    the row.  A date argument that is not empty is the date queried. *)
Theorem aggregation_date_scoped (s : store) (today : string)
    (date_str : option string) (before after : list Log.t) (e : Log.t) :
  schema_ok s ->
  logs s = before ++ e :: after ->
  (Log.log_date e <> query_date today date_str ->
   (forall r k vs v,
      fst (get_meals today date_str s) = Py.Return r ->
      In (k, vs) (GetMeals.meals r) ->
      In v vs -> View.log_id v <> Log.id e)
   /\ fst (get_meals today date_str s)
      = fst (get_meals today date_str (with_logs s (before ++ after))))
  /\ (Log.log_date e <> today ->
      fst (today_summary today s)
      = fst (today_summary today (with_logs s (before ++ after))))
  /\ (forall d2, d2 <> "" -> query_date today (Some d2) = d2).
Proof.
  intros Hs Hlogs. split; [|split].
  - intros Hne. split.
    + intros r k vs v Hrun Hin Hv Hid.
      apply (get_meals_returned s today date_str r Hs) in Hrun as [_ ->].
      cbn [GetMeals.meals] in Hin.
      apply in_groups_by_meal in Hin as [_ ->].
      apply in_group_of in Hv as ([l f] & q & Hr & _ & _ & ->).
      apply (in_entries_on s _ l f Hs) in Hr as (Hl & Hd & _).
      simpl in Hid.
      assert (He : In e (logs s)) by (rewrite Hlogs; apply in_elt).
      rewrite (unique_row _ _ Log.id (logs s) l e (logs_pk s Hs) Hl He Hid) in Hd.
      contradiction.
    + apply get_meals_same. simpl. rewrite Hlogs.
      now apply join_on_date_skip.
  - intros Hne. apply today_summary_same; [|reflexivity]. simpl.
    rewrite Hlogs. now apply join_on_date_skip.
  - intros d2 Hd2. destruct d2; [contradiction|reflexivity].
Qed.

Lemma aggregation_date_scoped_witness :
  fst (get_meals "2024-01-02" (Some "2024-01-02") demo_store)
  = fst (get_meals "2024-01-02" (Some "2024-01-02")
           (with_logs demo_store
              [ Log.mk 2 2 (Some 1.5%float) "2024-01-01" (Some "lunch");
                Log.mk 3 1 (Some 1%float) "2024-01-02" (Some "breakfast") ]))
  /\ fst (today_summary "2024-01-02" demo_store)
     = fst (today_summary "2024-01-02"
              (with_logs demo_store
                 [ Log.mk 2 2 (Some 1.5%float) "2024-01-01" (Some "lunch");
                   Log.mk 3 1 (Some 1%float) "2024-01-02" (Some "breakfast") ])).
Proof.
  destruct (aggregation_date_scoped demo_store "2024-01-02" (Some "2024-01-02")
              [] [ Log.mk 2 2 (Some 1.5%float) "2024-01-01" (Some "lunch");
                   Log.mk 3 1 (Some 1%float) "2024-01-02" (Some "breakfast") ]
              (Log.mk 1 1 (Some 2%float) "2024-01-01" (Some "breakfast"))
              demo_store_ok eq_refl) as (Hmeals & Hsum & _).
  split.
  - apply Hmeals. simpl. discriminate.
  - apply Hsum. simpl. discriminate.
Defined.

(** ** The default date and the frame of the two queries *)



(** C10.  [get_meals] and [today_summary] leave the store as they found
    it: the food, log and goal rows after the call are those before it. *)
Theorem aggregation_read_only (s : store) (today : string)
    (date_str : option string) :
  snd (get_meals today date_str s) = s
  /\ snd (today_summary today s) = s.
Proof.
  split; [apply get_meals_store | apply today_summary_store].
Qed.

(** ** What [add_food] stores and what it returns *)

Lemma add_food_foods (P name : string) (cal : Z) (p c f : float) (s : store) :
  Sql.int64 cal = true ->
  foods (snd (add_food P name cal p c f s))
  = filter (fun g => negb (String.eqb (Food.name g) name)) (foods s)
    ++ [ Food.mk (Sql.new_rowid (foods_seq s) (map Food.id (foods s)))
           name cal (Sql.store_real p) (Sql.store_real c) (Sql.store_real f) ].
Proof. intros H. now rewrite add_food_store, H. Qed.

Lemma add_food_refused (P name : string) (cal : Z) (p c f : float) (s : store) :
  Sql.int64 cal = false ->
  add_food P name cal p c f s = (Py.Raise Sql.too_large, s).
Proof.
  intros H. rewrite (surjective_pairing (add_food P name cal p c f s)).
  now rewrite add_food_return, add_food_store, H.
Qed.

(** After [add_food] with calories SQLite can hold, exactly one food row
    carries the name: the row just written, with the calories given and
    the three floats as their columns store them, under an id above every
    id the table held, the replaced row's included.  With any other
    calories the call raises [OverflowError] and the store is as it
    was. *)
Theorem add_food_upsert (P name : string) (cal : Z) (p c f : float)
    (s : store) :
  (Sql.int64 cal = true ->
   exists rowid,
     filter (fun g => String.eqb (Food.name g) name)
       (foods (snd (add_food P name cal p c f s)))
     = [ Food.mk rowid name cal (Sql.store_real p) (Sql.store_real c)
           (Sql.store_real f) ]
     /\ forall g, In g (foods s) -> Food.id g < rowid)
  /\ (Sql.int64 cal = false ->
      add_food P name cal p c f s = (Py.Raise Sql.too_large, s)).
Proof.
  split; [|apply add_food_refused]. intros Hcal.
  exists (Sql.new_rowid (foods_seq s) (map Food.id (foods s))). split.
  - rewrite (add_food_foods _ _ _ _ _ _ _ Hcal), filter_app. simpl.
    rewrite String.eqb_refl.
    assert (E : forall gs,
               filter (fun g => String.eqb (Food.name g) name)
                 (filter (fun g => negb (String.eqb (Food.name g) name)) gs)
               = []).
    { induction gs as [|g gs IH]; simpl; [reflexivity|].
      destruct (String.eqb (Food.name g) name) eqn:E; simpl;
        [|rewrite E]; exact IH. }
    now rewrite E.
  - intros g Hg. apply new_rowid_fresh. now apply in_map.
Qed.

Lemma add_food_upsert_witness :
  exists rowid,
    filter (fun g => String.eqb (Food.name g) "apple")
      (foods (snd (add_food "/tmp/nutrition.db" "apple" 100 nan (-0) 0.5
                     demo_store)))
    = [ Food.mk rowid "apple" 100 None (Some 0%float) (Some 0.5%float) ].
Proof.
  destruct (proj1 (add_food_upsert "/tmp/nutrition.db" "apple" 100 nan (-0) 0.5
                     demo_store) eq_refl) as (rowid & Hrow & _).
  exists rowid. exact Hrow.
Defined.

(** Replacing a food leaves the log rows that referenced it without a
    food: no row of [foods] has their [food_id] any more. *)
Lemma add_food_orphans (P : string) (cal : Z) (p c f : float) (s : store)
    (g : Food.t) (l : Log.t) :
  schema_ok s -> In g (foods s) -> Log.food_id l = Food.id g ->
  Sql.int64 cal = true ->
  food_of (snd (add_food P (Food.name g) cal p c f s)) l = None.
Proof.
  intros Hs Hg Hl Hcal. unfold food_of.
  destruct (find _ _) as [h|] eqn:E; [exfalso|reflexivity].
  apply find_some in E as [Hh Hid]. apply Z.eqb_eq in Hid.
  rewrite (add_food_foods _ _ _ _ _ _ _ Hcal) in Hh.
  apply in_app_iff in Hh as [Hh|[<-|[]]].
  - apply filter_In in Hh as [Hh Hname].
    rewrite Hl in Hid.
    pose proof (unique_row _ _ Food.id (foods s) h g (foods_pk s Hs) Hh Hg Hid).
    subst h. rewrite String.eqb_refl in Hname. discriminate.
  - simpl in Hid. rewrite Hl in Hid.
    pose proof (new_rowid_fresh (foods_seq s) (map Food.id (foods s))
                  (Food.id g) (in_map Food.id _ _ Hg)).
    lia.
Qed.

(** C8, as the code has it.  [add_food] with calories SQLite can hold
    returns the status ["ok"], the name it was given and the database
    path; the nutrient values are stored in the food row under that name
    (the floats as their columns store them) and are no part of the
    result.  With any other calories it raises [OverflowError] and stores
    nothing. *)
Theorem add_food_result (DB_PATH name : string) (calories : Z)
    (protein carbs fat : float) (s : store) :
  fst (add_food DB_PATH name calories protein carbs fat s)
  = (if Sql.int64 calories
     then Py.Return {| AddFood.status := "ok"; AddFood.food := name;
                       AddFood.db_path := DB_PATH |}
     else Py.Raise Sql.too_large)
  /\ (Sql.int64 calories = true ->
      exists rowid,
        In (Food.mk rowid name calories (Sql.store_real protein)
              (Sql.store_real carbs) (Sql.store_real fat))
          (foods (snd (add_food DB_PATH name calories protein carbs fat s))))
  /\ (Sql.int64 calories = false ->
      snd (add_food DB_PATH name calories protein carbs fat s) = s).
Proof.
  split; [apply add_food_return|]. split; intros Hcal.
  - exists (Sql.new_rowid (foods_seq s) (map Food.id (foods s))).
    rewrite (add_food_foods _ _ _ _ _ _ _ Hcal). apply in_elt.
  - now rewrite add_food_store, Hcal.
Qed.

Lemma add_food_result_witness :
  exists rowid,
    In (Food.mk rowid "pear" 100 (Some 1%float) (Some 26%float)
          (Some 0.5%float))
      (foods (snd (add_food "/tmp/nutrition.db" "pear" 100 1 26 0.5
                     demo_store))).
Proof.
  exact (proj1 (proj2 (add_food_result "/tmp/nutrition.db" "pear" 100 1 26 0.5
                         demo_store)) eq_refl).
Defined.

(** C8 fails as stated: two calls that store different nutrient values
    return the same result, so the result does not report the values. *)
Lemma add_food_result_hides_values :
  let s := init_db fresh_file in
  fst (add_food "/tmp/nutrition.db" "apple" 95 0.5 25 0.25 s)
  = fst (add_food "/tmp/nutrition.db" "apple" 100 1 26 0.5 s)
  /\ foods (snd (add_food "/tmp/nutrition.db" "apple" 95 0.5 25 0.25 s))
     = [ Food.mk 1 "apple" 95 (Some 0.5%float) (Some 25%float)
           (Some 0.25%float) ]
  /\ foods (snd (add_food "/tmp/nutrition.db" "apple" 100 1 26 0.5 s))
     = [ Food.mk 1 "apple" 100 (Some 1%float) (Some 26%float)
           (Some 0.5%float) ].
Proof. repeat split. Qed.

(** ** Replacing a food: the defect behind C1 and C2 *)

(** C1 at a failing input.  ["apple"] is stored under id 1; storing it
    again leaves one row under the name, with the new values, and that
    row's id is 2. *)
Theorem add_food_again_changes_id :
  let s1 := snd (add_food "/tmp/nutrition.db" "apple" 95 0.5 25 0.25
                   (init_db fresh_file)) in
  let s2 := snd (add_food "/tmp/nutrition.db" "apple" 100 1 26 0.5 s1) in
  foods s1 = [ Food.mk 1 "apple" 95 (Some 0.5%float) (Some 25%float)
                 (Some 0.25%float) ]
  /\ foods s2 = [ Food.mk 2 "apple" 100 (Some 1%float) (Some 26%float)
                    (Some 0.5%float) ].
Proof. split; reflexivity. Qed.

(** C2 at a failing input.  An entry logged for ["apple"] is reported by
    [get_meals] and counted by [today_summary]; once ["apple"] is stored
    again with other values the entry is in no group and the totals are
    zero, although the log row is still in the table. *)
Theorem add_food_again_drops_entries :
  let s1 := snd (add_food "/tmp/nutrition.db" "apple" 95 0.5 25 0.25
                   (init_db fresh_file)) in
  let s2 := snd (log_food "2024-01-01" "apple" 2 "breakfast" s1) in
  let s3 := snd (add_food "/tmp/nutrition.db" "apple" 100 1 26 0.5 s2) in
  fst (get_meals "2024-01-01" None s2)
  = Py.Return
      {| GetMeals.date := "2024-01-01";
         GetMeals.meals :=
           [ ("breakfast",
              [ View.mk 1 "apple" (Some 2%float) 95 (Some 0.5%float)
                  (Some 25%float) (Some 0.25%float) (Py.Float 190) ]) ] |}
  /\ logs s3 = [ Log.mk 1 1 (Some 2%float) "2024-01-01" (Some "breakfast") ]
  /\ foods s3 = [ Food.mk 2 "apple" 100 (Some 1%float) (Some 26%float)
                    (Some 0.5%float) ]
  /\ fst (get_meals "2024-01-01" None s3)
     = Py.Return {| GetMeals.date := "2024-01-01"; GetMeals.meals := [] |}
  /\ fst (today_summary "2024-01-01" s3)
     = Py.Return
         {| Summary.totals := totals_zero;
            Summary.goal := 2000;
            Summary.remaining_calories := Py.Int 2000 |}.
Proof. repeat split. Qed.

(** Once a food is stored again, a log row that referenced it is an entry
    of no date: whatever the date, neither aggregation sees it. *)
Theorem add_food_drops_entries (P : string) (cal : Z) (p c f : float)
    (s : store) (g : Food.t) (l : Log.t) :
  schema_ok s -> In g (foods s) -> Log.food_id l = Food.id g ->
  Sql.int64 cal = true ->
  forall d g',
    ~ In (l, g') (entries_on (snd (add_food P (Food.name g) cal p c f s)) d).
Proof.
  intros Hs Hg Hl Hcal d g' Hin. unfold entries_on in Hin.
  apply in_flat_map in Hin as (l' & _ & Hin).
  destruct (food_of _ l') as [h|] eqn:E; [|destruct Hin].
  destruct Hin as [[= -> ->]|[]].
  now rewrite (add_food_orphans P cal p c f s g l Hs Hg Hl Hcal) in E.
Qed.

Lemma add_food_drops_entries_witness :
  ~ In (Log.mk 1 1 (Some 2%float) "2024-01-01" (Some "breakfast"),
        Food.mk 3 "apple" 100 (Some 1%float) (Some 26%float) (Some 0.5%float))
      (entries_on
         (snd (add_food "/tmp/nutrition.db" "apple" 100 1 26 0.5 demo_store))
         "2024-01-01").
Proof.
  exact (add_food_drops_entries "/tmp/nutrition.db" 100 1 26 0.5 demo_store
           (Food.mk 1 "apple" 95 (Some 0.5%float) (Some 25%float)
              (Some 0.25%float))
           (Log.mk 1 1 (Some 2%float) "2024-01-01" (Some "breakfast"))
           demo_store_ok (or_introl eq_refl) eq_refl eq_refl
           "2024-01-01"
           (Food.mk 3 "apple" 100 (Some 1%float) (Some 26%float)
              (Some 0.5%float))).
Defined.

(** ** Stores the program reaches *)

(** Whatever the calls made since [init_db], the store meets the
    constraints of the schema and holds the goal row. *)
Theorem reached_store_ok (DB_PATH : string) (d : database) (calls : list call) :
  file_ok d ->
  schema_ok (run DB_PATH calls (init_db d))
  /\ exists goal, goal_is (run DB_PATH calls (init_db d)) goal.
Proof.
  intros Hd. split.
  - apply run_schema_ok, init_db_schema_ok, Hd.
  - destruct (init_db_goal d Hd) as [c Hc]. exact (run_goal _ calls _ _ Hc).
Qed.

Lemma reached_store_ok_witness :
  schema_ok
    (run "/tmp/nutrition.db"
       [ CallAddFood "apple" 95 0.5 25 0.25; CallAddFood "apple" 100 1 26 0.5;
         CallSetGoal 1500; Restart ]
       (init_db fresh_file)).
Proof.
  exact (proj1 (reached_store_ok "/tmp/nutrition.db" fresh_file
                  [ CallAddFood "apple" 95 0.5 25 0.25;
                    CallAddFood "apple" 100 1 26 0.5;
                    CallSetGoal 1500; Restart ]
                  fresh_file_ok)).
Defined.

(** The goal [set_daily_calorie_goal] stores is the goal [today_summary]
    reports: whenever the summary is returned after the call, its goal is
    the value given if SQLite can hold it, and the goal of before if not;
    and the summary is returned whenever no entry of the day has a NULL
    quantity or macro value. *)
Theorem goal_persists (s : store) (today : string) (c0 c : Z) :
  schema_ok s -> goal_is s c0 ->
  (forall r,
     fst (today_summary today (snd (set_daily_calorie_goal c s))) = Py.Return r ->
     Summary.goal r = if Sql.int64 c then c else c0)
  /\ (forallb complete (entries_on s today) = true ->
      exists r,
        fst (today_summary today (snd (set_daily_calorie_goal c s)))
        = Py.Return r).
Proof.
  intros Hs Hg.
  set (s' := snd (set_daily_calorie_goal c s)).
  assert (Hs' : schema_ok s') by exact (step_schema_ok "" s (CallSetGoal c) Hs).
  assert (Hg' : goal_is s' (if Sql.int64 c then c else c0)).
  { destruct (Sql.int64 c) eqn:Hc.
    - exact (set_daily_calorie_goal_goal s c0 c Hc Hg).
    - subst s'. now rewrite set_goal_store, Hc. }
  assert (He : entries_on s' today = entries_on s today).
  { subst s'. rewrite set_goal_store. now destruct (Sql.int64 c). }
  rewrite (today_summary_run s' today Hs'), He, (select_goal_is s' _ Hg').
  cbn [fst]. split.
  - intros r. destruct (sum_rows _ _); [|discriminate]. now intros [= <-].
  - intros Hall.
    destruct (sum_rows_complete _ Hall totals_zero) as (t & -> & _). eauto.
Qed.

Lemma goal_persists_witness :
  exists r,
    fst (today_summary "2024-01-01"
           (snd (set_daily_calorie_goal 1500 demo_store))) = Py.Return r
    /\ Summary.goal r = 1500.
Proof.
  destruct (goal_persists demo_store "2024-01-01" 2000 1500 demo_store_ok
              eq_refl) as [Hgoal Hreturns].
  destruct (Hreturns eq_refl) as [r Hr].
  exists r. split; [exact Hr | exact (Hgoal r Hr)].
Defined.

(** ** A logged entry in the aggregations *)

Lemma find_by_id (fs : list Food.t) (f : Food.t) :
  NoDup (map Food.id fs) -> In f fs ->
  find (fun g => Food.id g =? Food.id f) fs = Some f.
Proof.
  intros Hnd Hf. destruct (find _ fs) as [h|] eqn:E.
  - apply find_some in E as [Hh Hid]. apply Z.eqb_eq in Hid.
    now rewrite (unique_row _ _ Food.id fs h f Hnd Hh Hf Hid).
  - pose proof (find_none _ _ E f Hf) as Hne. simpl in Hne.
    now rewrite Z.eqb_refl in Hne.
Qed.

Lemma join_on_date_snoc (ls : list Log.t) (l : Log.t) (fs : list Food.t)
    (d : string) :
  Sql.join_on_date (ls ++ [l]) fs d
  = Sql.join_on_date ls fs d ++ Sql.join_on_date [l] fs d.
Proof.
  unfold Sql.join_on_date. now rewrite flat_map_app, filter_app.
Qed.

Lemma join_on_date_one (l : Log.t) (fs : list Food.t) (f : Food.t) :
  NoDup (map Food.id fs) -> In f fs -> Log.food_id l = Food.id f ->
  Sql.join_on_date [l] fs (Log.log_date l) = [(l, f)].
Proof.
  intros Hnd Hf Hl. unfold Sql.join_on_date. simpl. rewrite app_nil_r.
  rewrite (filter_by_key fs (Log.food_id l) Hnd), Hl, (find_by_id fs f Hnd Hf).
  simpl. now rewrite String.eqb_refl.
Qed.

(** What [log_food] stores for the name of a food row. *)
Lemma log_food_store (s : store) (today : string) (quantity : float)
    (meal : string) (f : Food.t) :
  schema_ok s -> In f (foods s) ->
  snd (log_food today (Food.name f) quantity meal s)
  = set_logs
      (logs s
         ++ [ Log.mk (Sql.new_rowid (logs_seq s) (map Log.id (logs s)))
                (Food.id f) (Sql.store_real quantity) today (Some meal) ],
       Sql.new_rowid (logs_seq s) (map Log.id (logs s)))
      s.
Proof.
  intros Hs Hf. run_db.
  now rewrite (select_food_id_some _ f (foods_name_unique s Hs) Hf).
Qed.

(** The entries of the day after [log_food]: those of before, then the
    new row joined to the food named. *)
Lemma log_food_entries (s : store) (today : string) (quantity : float)
    (meal : string) (f : Food.t) :
  schema_ok s -> In f (foods s) ->
  schema_ok (snd (log_food today (Food.name f) quantity meal s))
  /\ entries_on (snd (log_food today (Food.name f) quantity meal s)) today
     = entries_on s today
       ++ [ (Log.mk (Sql.new_rowid (logs_seq s) (map Log.id (logs s)))
               (Food.id f) (Sql.store_real quantity) today (Some meal), f) ].
Proof.
  intros Hs Hf.
  assert (Hs' : schema_ok (snd (log_food today (Food.name f) quantity meal s))).
  { exact (step_schema_ok "" s
             (CallLogFood today (Food.name f) quantity meal) Hs). }
  split; [exact Hs'|].
  rewrite <- (join_on_date_entries _ today Hs'),
    <- (join_on_date_entries s today Hs),
    (log_food_store s today quantity meal f Hs Hf).
  cbn [logs foods set_logs fst]. rewrite join_on_date_snoc. f_equal.
  set (l := Log.mk _ (Food.id f) (Sql.store_real quantity) today (Some meal)).
  exact (join_on_date_one l (foods s) f (foods_pk s Hs) Hf eq_refl).
Qed.

Lemma has_quantity_snoc (rows : list (Log.t * Food.t)) (r : Log.t * Food.t)
    (q : float) :
  forallb has_quantity rows = true -> Log.quantity (fst r) = Some q ->
  forallb has_quantity (rows ++ [r]) = true.
Proof.
  intros Hrows Hq. rewrite forallb_app, Hrows. simpl.
  unfold has_quantity. now rewrite Hq.
Qed.

(** An entry logged under the default meal is found in the group
    ["unspecified"] of the day, with the quantity its column stores,
    when no entry of the day has a NULL quantity. *)
Theorem default_meal_group (s : store) (today : string) (quantity q : float)
    (f : Food.t) :
  schema_ok s -> In f (foods s) ->
  forallb has_quantity (entries_on s today) = true ->
  Sql.store_real quantity = Some q ->
  exists r vs v,
    fst (get_meals today None
           (snd (log_food today (Food.name f) quantity meal_default s)))
    = Py.Return r
    /\ In ("unspecified", vs) (GetMeals.meals r)
    /\ In v vs
    /\ View.food v = Food.name f
    /\ View.quantity v = Some q
    /\ View.calories_total v
       = Py.mul (Py.Int (Food.calories f)) (Py.Float q).
Proof.
  intros Hs Hf Hall Hq.
  destruct (log_food_entries s today quantity meal_default f Hs Hf)
    as [Hs' He].
  set (s' := snd (log_food today (Food.name f) quantity meal_default s)) in *.
  set (l := Log.mk (Sql.new_rowid (logs_seq s) (map Log.id (logs s)))
              (Food.id f) (Sql.store_real quantity) today (Some meal_default))
    in *.
  assert (Hl : Log.quantity (fst (l, f)) = Some q) by exact Hq.
  exists {| GetMeals.date := today;
            GetMeals.meals := groups_by_meal (entries_on s' today) |},
    (group_of "unspecified" (entries_on s' today)), (entry_view (l, f) q).
  rewrite (get_meals_run s' today None Hs').
  change (query_date today None) with today. unfold meals_of.
  rewrite He, (has_quantity_snoc _ (l, f) q Hall Hl).
  split; [reflexivity|]. cbn [GetMeals.meals]. split; [|split].
  - apply in_groups_by_meal. split; [|reflexivity].
    rewrite map_app. apply in_or_app. right. now left.
  - apply in_group_of. exists (l, f), q.
    repeat split; [apply in_elt | assumption].
  - repeat split.
Qed.

Lemma default_meal_group_witness :
  exists r vs v,
    fst (get_meals "2024-01-03" None
           (snd (log_food "2024-01-03" "egg" 2 meal_default demo_store)))
    = Py.Return r
    /\ In ("unspecified", vs) (GetMeals.meals r)
    /\ In v vs
    /\ View.food v = "egg"
    /\ View.quantity v = Some 2%float
    /\ View.calories_total v = Py.Float 140.
Proof.
  exact (default_meal_group demo_store "2024-01-03" 2 2
           (Food.mk 2 "egg" 70 (Some 6%float) (Some 0.5%float) (Some 5%float))
           demo_store_ok (or_intror (or_introl eq_refl)) eq_refl eq_refl).
Defined.

(** ** What no call does *)

Lemma step_logs (P : string) (s : store) (k : call) :
  exists added, logs (step P s k) = logs s ++ added.
Proof.
  destruct k; cbn [step].
  - exists []. rewrite add_food_store, app_nil_r.
    now destruct (Sql.int64 calories).
  - destruct (log_food_cases s today name quantity meal) as [->|[id ->]].
    + exists []. now rewrite app_nil_r.
    + eexists. reflexivity.
  - exists []. now rewrite get_meals_store, app_nil_r.
  - exists []. rewrite set_goal_store, app_nil_r.
    now destruct (Sql.int64 calories).
  - exists []. now rewrite today_summary_store, app_nil_r.
  - exists []. simpl. now rewrite app_nil_r.
Qed.

(** The log is append-only: whatever is called, restarts included, the
    log rows a store holds stay, unchanged and in place, at the head of
    the table; rows are only ever added after them. *)
Theorem logs_append_only (DB_PATH : string) (calls : list call) (s : store) :
  exists added, logs (run DB_PATH calls s) = logs s ++ added.
Proof.
  revert s. induction calls as [|k calls IH]; intros s; simpl.
  - exists []. now rewrite app_nil_r.
  - destruct (IH (step DB_PATH s k)) as [more Hmore].
    destruct (step_logs DB_PATH s k) as [added Hadded].
    exists (added ++ more). now rewrite Hmore, Hadded, app_assoc.
Qed.

Lemma run_log_kept (P : string) (calls : list call) (l : Log.t) :
  forall s, In l (logs s) -> In l (logs (run P calls s)).
Proof.
  induction calls as [|k calls IH]; intros s Hl; simpl; [assumption|].
  apply IH. destruct (step_logs P s k) as [added ->].
  apply in_or_app. now left.
Qed.

Lemma step_food_names (P : string) (s : store) (k : call) (n : string) :
  In n (map Food.name (foods s)) -> In n (map Food.name (foods (step P s k))).
Proof.
  intros Hn. destruct k; cbn [step].
  - rewrite add_food_store. destruct (Sql.int64 calories); [|exact Hn].
    cbn [foods set_foods fst]. rewrite map_app, in_app_iff. simpl.
    destruct (String.eqb_spec name n) as [->|Hne]; [now right; left|left].
    apply in_map_iff in Hn as (g & <- & Hg). apply in_map, filter_In.
    split; [assumption|]. apply negb_true_iff, String.eqb_neq. congruence.
  - now destruct (log_food_cases s today name quantity meal) as [->|[id ->]].
  - now rewrite get_meals_store.
  - rewrite set_goal_store. now destruct (Sql.int64 calories).
  - now rewrite today_summary_store.
  - exact Hn.
Qed.

Lemma run_food_names (P : string) (calls : list call) (n : string) :
  forall s,
    In n (map Food.name (foods s)) ->
    In n (map Food.name (foods (run P calls s))).
Proof.
  induction calls as [|k calls IH]; intros s Hn; simpl; [assumption|].
  apply IH, step_food_names, Hn.
Qed.

Lemma select_food_id_found (n : string) (t : list Food.t) :
  In n (map Food.name t) -> exists id, Sql.select_food_id n t = Some id.
Proof.
  intros Hn. unfold Sql.select_food_id.
  destruct (find _ t) as [g|] eqn:E; [simpl; eauto|exfalso].
  apply in_map_iff in Hn as (g & <- & Hg).
  pose proof (find_none _ _ E g Hg) as Hg'. simpl in Hg'.
  now rewrite String.eqb_refl in Hg'.
Qed.

(** No call removes a food name: once [add_food] has stored a name (its
    calories being an integer SQLite can hold), a food row carries it
    after any further calls, and [log_food] on that name returns status
    ["ok"], never the error result. *)
Theorem food_name_persists (DB_PATH name : string) (calories : Z)
    (protein carbs fat : float) (calls : list call) (s : store)
    (today : string) (quantity : float) (meal : string) :
  Sql.int64 calories = true ->
  let s' :=
    run DB_PATH calls
      (snd (add_food DB_PATH name calories protein carbs fat s)) in
  In name (map Food.name (foods s'))
  /\ fst (log_food today name quantity meal s')
     = LogFood.Logged "ok" name quantity meal.
Proof.
  intros Hcal s'.
  assert (Hn : In name (map Food.name (foods s'))).
  { apply run_food_names.
    rewrite (add_food_foods _ _ _ _ _ _ _ Hcal), map_app, in_app_iff.
    right. now left. }
  split; [exact Hn|].
  destruct (select_food_id_found name _ Hn) as [id Hid].
  run_db. now rewrite Hid.
Qed.

Lemma food_name_persists_witness :
  fst (log_food "2024-01-05" "pear" 1 "snack"
         (run "/tmp/nutrition.db"
            [ CallAddFood "apple" 100 1 26 0.5; CallSetGoal 1500; Restart ]
            (snd (add_food "/tmp/nutrition.db" "pear" 100 1 26 0.5
                    demo_store))))
  = LogFood.Logged "ok" "pear" 1 "snack".
Proof.
  exact (proj2 (food_name_persists "/tmp/nutrition.db" "pear" 100 1 26 0.5
                  [ CallAddFood "apple" 100 1 26 0.5; CallSetGoal 1500;
                    Restart ]
                  demo_store "2024-01-05" 1 "snack" eq_refl)).
Defined.

(** When [today_summary] returns.  On every store reached from [init_db]
    it returns a summary exactly when no entry of the day has a NULL
    quantity or macro value, and raises [TypeError] otherwise; on a store
    without the goal row it raises [TypeError] in any case.  It leaves the
    store as it was. *)
Theorem today_summary_returns (DB_PATH : string) (d : database)
    (calls : list call) (today : string) :
  file_ok d ->
  ((exists r,
      today_summary today (run DB_PATH calls (init_db d))
      = (Py.Return r, run DB_PATH calls (init_db d)))
   <-> forallb complete (entries_on (run DB_PATH calls (init_db d)) today)
       = true)
  /\ (forallb complete (entries_on (run DB_PATH calls (init_db d)) today)
      = false ->
      exists msg,
        today_summary today (run DB_PATH calls (init_db d))
        = (Py.Raise (Py.TypeError msg), run DB_PATH calls (init_db d)))
  /\ (forall s,
        goals s = [] ->
        exists msg, today_summary today s = (Py.Raise (Py.TypeError msg), s)).
Proof.
  intros Hd.
  assert (Hs : schema_ok (run DB_PATH calls (init_db d)))
    by apply run_schema_ok, init_db_schema_ok, Hd.
  destruct (init_db_goal d Hd) as [c0 Hc0].
  destruct (run_goal DB_PATH calls _ _ Hc0) as [c Hc].
  rewrite (today_summary_run _ today Hs), (select_goal_is _ c Hc).
  split; [split|split].
  - intros [r Hr]. destruct (forallb complete _) eqn:Hall; [reflexivity|].
    destruct (sum_rows_incomplete _ Hall totals_zero) as [msg Hmsg].
    rewrite Hmsg in Hr. discriminate.
  - intros Hall.
    destruct (sum_rows_complete _ Hall totals_zero) as (t & -> & _). eauto.
  - intros Hall.
    destruct (sum_rows_incomplete _ Hall totals_zero) as [msg ->]. eauto.
  - intros s Hg. rewrite (surjective_pairing (today_summary today s)),
      today_summary_store.
    assert (H : exists msg,
               fst (today_summary today s) = Py.Raise (Py.TypeError msg));
      [|destruct H as [msg ->]; eauto].
    run_db.
    destruct (forallb complete (Sql.join_on_date (logs s) (foods s) today))
      eqn:Hall.
    + destruct (sum_rows_complete _ Hall totals_zero) as (t & -> & _).
      simpl. rewrite Hg. simpl. eauto.
    + destruct (sum_rows_incomplete _ Hall totals_zero) as [msg ->].
      simpl. eauto.
Qed.

Lemma today_summary_returns_witness :
  exists r,
    today_summary "2024-01-01"
      (run "/tmp/nutrition.db"
         [ CallAddFood "apple" 95 0.5 25 0.25;
           CallLogFood "2024-01-01" "apple" 2 "breakfast" ]
         (init_db fresh_file))
    = (Py.Return r,
       run "/tmp/nutrition.db"
         [ CallAddFood "apple" 95 0.5 25 0.25;
           CallLogFood "2024-01-01" "apple" 2 "breakfast" ]
         (init_db fresh_file)).
Proof.
  exact (proj2 (proj1 (today_summary_returns "/tmp/nutrition.db" fresh_file
                         [ CallAddFood "apple" 95 0.5 25 0.25;
                           CallLogFood "2024-01-01" "apple" 2 "breakfast" ]
                         "2024-01-01" fresh_file_ok))
           eq_refl).
Defined.

(** A restart is invisible: on a file that meets the schema's constraints,
    a sequence of calls with a restart in it leaves the store the same
    sequence leaves without the restart. *)
Theorem restart_transparent (DB_PATH : string) (d : database)
    (before after : list call) :
  file_ok d ->
  run DB_PATH (before ++ Restart :: after) (init_db d)
  = run DB_PATH (before ++ after) (init_db d).
Proof.
  intros Hd. unfold run. rewrite !fold_left_app. simpl.
  destruct (init_db_goal d Hd) as [c0 Hc0].
  destruct (run_goal DB_PATH before _ _ Hc0) as [c Hc]. unfold run in Hc.
  now rewrite (init_db_on_disk_fixed _ c Hc).
Qed.

Lemma restart_transparent_witness :
  run "/tmp/nutrition.db"
    ([ CallAddFood "apple" 95 0.5 25 0.25; CallSetGoal 1800 ]
       ++ Restart :: [ CallLogFood "2024-01-01" "apple" 2 "breakfast" ])
    (init_db fresh_file)
  = run "/tmp/nutrition.db"
      ([ CallAddFood "apple" 95 0.5 25 0.25; CallSetGoal 1800 ]
         ++ [ CallLogFood "2024-01-01" "apple" 2 "breakfast" ])
      (init_db fresh_file).
Proof.
  exact (restart_transparent "/tmp/nutrition.db" fresh_file
           [ CallAddFood "apple" 95 0.5 25 0.25; CallSetGoal 1800 ]
           [ CallLogFood "2024-01-01" "apple" 2 "breakfast" ]
           fresh_file_ok).
Defined.

(** ** Rowids are not reused *)

Lemma find_id_none (fs : list Food.t) (i : Z) :
  (forall g, In g fs -> Food.id g <> i) ->
  find (fun g => Food.id g =? i) fs = None.
Proof.
  intros Hno. destruct (find _ fs) as [g|] eqn:E; [exfalso|reflexivity].
  apply find_some in E as [Hg Hi]. apply Z.eqb_eq in Hi. exact (Hno g Hg Hi).
Qed.

Lemma step_retired (P : string) (s : store) (k : call) (i : Z) :
  retired s i -> retired (step P s k) i.
Proof.
  intros [Hseq Hno]. destruct k; cbn [step].
  - rewrite add_food_store. destruct (Sql.int64 calories); [|now split].
    split; cbn [foods foods_seq set_foods fst snd].
    + unfold Sql.new_rowid. lia.
    + intros g Hg. apply in_app_iff in Hg as [Hg|[<-|[]]].
      * apply filter_In in Hg as [Hg _]. now apply Hno.
      * simpl. unfold Sql.new_rowid. lia.
  - destruct (log_food_cases s today name quantity meal) as [->|[id ->]];
      now split.
  - rewrite get_meals_store. now split.
  - rewrite set_goal_store. destruct (Sql.int64 calories); now split.
  - rewrite today_summary_store. now split.
  - now split.
Qed.

Lemma run_retired (P : string) (calls : list call) (i : Z) :
  forall s, retired s i -> retired (run P calls s) i.
Proof.
  induction calls as [|k calls IH]; intros s Hs; simpl; [assumption|].
  apply IH, step_retired, Hs.
Qed.

(** The entries a replaced food had are lost for good: once [add_food]
    is called with the name of an existing food (and calories SQLite can
    hold), a log row that referenced that food stays in the table but is
    joined to no food, for every date, after any further calls (the old
    id is never given to a food again). *)
Theorem replaced_food_entries_lost (DB_PATH : string) (calories : Z)
    (protein carbs fat : float) (s : store) (g : Food.t) (l : Log.t)
    (calls : list call) :
  schema_ok s -> In g (foods s) -> In l (logs s) ->
  Log.food_id l = Food.id g ->
  Sql.int64 calories = true ->
  let s' :=
    run DB_PATH calls
      (snd (add_food DB_PATH (Food.name g) calories protein carbs fat s)) in
  In l (logs s')
  /\ food_of s' l = None
  /\ forall d g', ~ In (l, g') (entries_on s' d).
Proof.
  intros Hs Hg Hin Hl Hcal s'.
  set (s1 := snd (add_food DB_PATH (Food.name g) calories protein carbs fat s))
    in *.
  assert (Hret : retired s1 (Log.food_id l)).
  { split.
    - subst s1. rewrite add_food_store, Hcal. cbn [foods_seq set_foods snd].
      rewrite Hl.
      pose proof (new_rowid_fresh (foods_seq s) (map Food.id (foods s))
                    (Food.id g) (in_map Food.id _ _ Hg)). lia.
    - intros h Hh Hid.
      pose proof (add_food_orphans DB_PATH calories protein carbs fat s g l
                    Hs Hg Hl Hcal) as Hnone.
      fold s1 in Hnone. unfold food_of in Hnone.
      pose proof (find_none _ _ Hnone h Hh) as Hne. simpl in Hne.
      apply Z.eqb_neq in Hne. contradiction. }
  apply (run_retired DB_PATH calls) in Hret. fold s' in Hret.
  assert (Hnone : food_of s' l = None)
    by (apply find_id_none, Hret).
  split; [|split].
  - apply run_log_kept. subst s1. rewrite add_food_store, Hcal. exact Hin.
  - exact Hnone.
  - intros d g' He. unfold entries_on in He.
    apply in_flat_map in He as (l' & _ & He).
    destruct (food_of s' l') as [h|] eqn:E; [|destruct He].
    destruct He as [[= -> ->]|[]]. congruence.
Qed.

Lemma replaced_food_entries_lost_witness :
  let s' :=
    run "/tmp/nutrition.db"
      [ CallAddFood "apple" 95 0.5 25 0.25; CallAddFood "pear" 100 1 26 0.5 ]
      (snd (add_food "/tmp/nutrition.db" "apple" 100 1 26 0.5 demo_store)) in
  In (Log.mk 1 1 (Some 2%float) "2024-01-01" (Some "breakfast")) (logs s')
  /\ food_of s' (Log.mk 1 1 (Some 2%float) "2024-01-01" (Some "breakfast"))
     = None.
Proof.
  destruct (replaced_food_entries_lost "/tmp/nutrition.db" 100 1 26 0.5
              demo_store
              (Food.mk 1 "apple" 95 (Some 0.5%float) (Some 25%float)
                 (Some 0.25%float))
              (Log.mk 1 1 (Some 2%float) "2024-01-01" (Some "breakfast"))
              [ CallAddFood "apple" 95 0.5 25 0.25;
                CallAddFood "pear" 100 1 26 0.5 ]
              demo_store_ok (or_introl eq_refl) (or_introl eq_refl) eq_refl
              eq_refl)
    as (Hkept & Hnone & _).
  split; [exact Hkept | exact Hnone].
Defined.

(** ** No entry is lost or doubled by the grouping *)

Lemma setdefault_append_concat {V : Type} (k : string) (v : V)
    (meals : list (string * list V)) :
  Permutation (List.concat (map snd (setdefault_append k v meals)))
    (List.concat (map snd meals) ++ [v]).
Proof.
  induction meals as [|[k' vs] meals IH]; simpl; [reflexivity|].
  destruct (String.eqb k' k); simpl.
  - rewrite <- !app_assoc. apply Permutation_app_head, Permutation_app_comm.
  - rewrite <- app_assoc. now apply Permutation_app_head.
Qed.

Lemma views_of_snoc (rows : list (Log.t * Food.t)) (r : Log.t * Food.t)
    (q : float) :
  Log.quantity (fst r) = Some q ->
  views_of (rows ++ [r]) = views_of rows ++ [entry_view r q].
Proof.
  intros Hq. unfold views_of. rewrite flat_map_app. simpl.
  now rewrite Hq, app_nil_r.
Qed.

Lemma groups_by_meal_concat (rows : list (Log.t * Food.t)) :
  forallb has_quantity rows = true ->
  Permutation (List.concat (map snd (groups_by_meal rows))) (views_of rows).
Proof.
  induction rows as [|r rows IH] using rev_ind; [reflexivity|].
  rewrite forallb_app. intros Hall.
  apply andb_true_iff in Hall as [Hrows Hr]. simpl in Hr.
  rewrite andb_true_r in Hr. unfold has_quantity in Hr.
  destruct (Log.quantity (fst r)) as [q|] eqn:Hq; [|discriminate].
  rewrite (groups_by_meal_snoc rows r q Hq), setdefault_append_concat,
    (views_of_snoc rows r q Hq).
  apply Permutation_app_tail, IH, Hrows.
Qed.

(** With a quantity in every row, the views are one per row, in row
    order. *)
Lemma views_of_ids (rows : list (Log.t * Food.t)) :
  forallb has_quantity rows = true ->
  map View.log_id (views_of rows) = map (fun e => Log.id (fst e)) rows.
Proof.
  induction rows as [|r rows IH]; cbn [forallb]; [reflexivity|].
  intros Hall. apply andb_true_iff in Hall as [Hr Hrows].
  unfold has_quantity in Hr. unfold views_of in *. cbn [flat_map map].
  destruct (Log.quantity (fst r)); [|discriminate].
  simpl. now rewrite (IH Hrows).
Qed.

(** When no entry of the date has a NULL quantity, [get_meals] returns,
    and its groups, taken together, hold the views of the date's entries,
    one view per entry: no entry of the date is missing from the groups,
    none is in two groups or twice in one, and the group sizes add up to
    the number of entries.  The mapping is empty exactly when the date has
    no entry. *)
Theorem get_meals_partition (s : store) (today : string)
    (date_str : option string) :
  schema_ok s ->
  forallb has_quantity (entries_on s (query_date today date_str)) = true ->
  exists r,
    fst (get_meals today date_str s) = Py.Return r
    /\ Permutation (List.concat (map snd (GetMeals.meals r)))
         (views_of (entries_on s (query_date today date_str)))
    /\ map View.log_id (views_of (entries_on s (query_date today date_str)))
       = map (fun e => Log.id (fst e))
           (entries_on s (query_date today date_str))
    /\ (GetMeals.meals r = [] <-> entries_on s (query_date today date_str) = [])
    /\ list_sum (map (fun g => List.length (snd g)) (GetMeals.meals r))
       = List.length (entries_on s (query_date today date_str)).
Proof.
  intros Hs Hall. rewrite (get_meals_run s today date_str Hs).
  unfold meals_of. rewrite Hall. eexists. split; [reflexivity|].
  cbn [GetMeals.meals].
  set (rows := entries_on s (query_date today date_str)) in *.
  pose proof (groups_by_meal_concat rows Hall) as Hperm.
  pose proof (views_of_ids rows Hall) as Hids.
  split; [exact Hperm|]. split; [exact Hids|]. split.
  { split; intros E.
    - rewrite E in Hperm. simpl in Hperm. apply Permutation_nil in Hperm.
      rewrite Hperm in Hids. now destruct rows.
    - now rewrite E. }
  apply Permutation_length in Hperm.
  apply (f_equal (@List.length Z)) in Hids. rewrite !length_map in Hids.
  rewrite <- Hids, <- Hperm. clear Hperm Hids.
  induction (groups_by_meal rows) as [|g gs IH]; simpl; [reflexivity|].
  now rewrite length_app, IH.
Qed.

Lemma get_meals_partition_witness :
  exists r,
    fst (get_meals "2024-01-02" (Some "2024-01-01") demo_store) = Py.Return r
    /\ list_sum (map (fun g => List.length (snd g)) (GetMeals.meals r))
       = 2%nat.
Proof.
  destruct (get_meals_partition demo_store "2024-01-02" (Some "2024-01-01")
              demo_store_ok eq_refl) as (r & Hr & _ & _ & _ & Hsum).
  exists r. split; [exact Hr | exact Hsum].
Defined.

(** ** What [log_food] does to the aggregations *)

Lemma sum_rows_app (rows rows' : list (Log.t * Food.t)) :
  forall t,
    sum_rows (rows ++ rows') t = Py.and_then (sum_rows rows t) (sum_rows rows').
Proof.
  induction rows as [|r rows IH]; intros t; cbn [sum_rows app];
    [reflexivity|].
  destruct (accumulate t r) as [t1|e]; cbn [Py.and_then];
    [apply IH | reflexivity].
Qed.

(** Logging a food moves the day's summary by exactly that entry.  When
    the summary was returned before the call and the food has its three
    macro values: if the quantity is stored as [q], each total after
    [log_food] is the total before plus the food's value times [q] (the
    new row is the last one summed, so this is exact in floating point
    too), the goal is unchanged, and [remaining_calories] is the goal
    minus the new calorie total; if the quantity is stored as NULL, the
    summary raises [TypeError] from then on. *)
Theorem log_food_adds_to_summary (s : store) (today : string)
    (quantity : float) (meal : string) (f : Food.t) (r : Summary.result)
    (protein carbs fat : float) :
  schema_ok s -> In f (foods s) ->
  fst (today_summary today s) = Py.Return r ->
  Food.protein f = Some protein -> Food.carbs f = Some carbs ->
  Food.fat f = Some fat ->
  (forall q,
     Sql.store_real quantity = Some q ->
     fst (today_summary today
            (snd (log_food today (Food.name f) quantity meal s)))
     = Py.Return
         {| Summary.totals :=
              totals_plus (Summary.totals r) (Food.calories f) protein carbs
                fat q;
            Summary.goal := Summary.goal r;
            Summary.remaining_calories :=
              Py.sub (Py.Int (Summary.goal r))
                (Totals.calories
                   (totals_plus (Summary.totals r) (Food.calories f) protein
                      carbs fat q)) |})
  /\ (Sql.store_real quantity = None ->
      fst (today_summary today
             (snd (log_food today (Food.name f) quantity meal s)))
      = Py.Raise no_quantity).
Proof.
  intros Hs Hf Hr Hp Hc Hft.
  destruct (log_food_entries s today quantity meal f Hs Hf) as [Hs' He].
  set (s' := snd (log_food today (Food.name f) quantity meal s)) in *.
  assert (Hg : goals s' = goals s).
  { subst s'. now rewrite (log_food_store s today quantity meal f Hs Hf). }
  rewrite (today_summary_run s today Hs) in Hr. cbn [fst] in Hr.
  rewrite (today_summary_run s' today Hs'), He, Hg, sum_rows_app. cbn [fst].
  destruct (sum_rows (entries_on s today) totals_zero) as [t|e];
    [|discriminate].
  destruct (Sql.select_goal (goals s)) as [goal|]; [|discriminate].
  injection Hr as <-. cbn [Py.and_then sum_rows Summary.totals Summary.goal].
  unfold accumulate. cbn [fst snd Log.quantity]. rewrite Hp, Hc, Hft.
  split.
  - intros q ->. reflexivity.
  - intros ->. reflexivity.
Qed.

Lemma log_food_adds_to_summary_witness :
  totals_of
    (fst (today_summary "2024-01-01"
            (snd (log_food "2024-01-01" "egg" 2 "dinner" demo_store))))
  = Some (totals_plus
            {| Totals.calories := Py.Float 295; Totals.protein := Py.Float 10;
               Totals.carbs := Py.Float 50.75; Totals.fat := Py.Float 8 |}
            70 6 0.5 5 2).
Proof.
  exact (f_equal totals_of
           (proj1 (log_food_adds_to_summary demo_store "2024-01-01" 2 "dinner"
                     (Food.mk 2 "egg" 70 (Some 6%float) (Some 0.5%float)
                        (Some 5%float))
                     {| Summary.totals :=
                          {| Totals.calories := Py.Float 295;
                             Totals.protein := Py.Float 10;
                             Totals.carbs := Py.Float 50.75;
                             Totals.fat := Py.Float 8 |};
                        Summary.goal := 2000;
                        Summary.remaining_calories := Py.Float 1705 |}
                     6 0.5 5 demo_store_ok (or_intror (or_introl eq_refl))
                     eq_refl eq_refl eq_refl eq_refl)
              2%float eq_refl)).
Defined.

(** [log_food] writes under the current date only: the meals of any other
    date queried, and the summary computed on any other day, are what they
    were before the call. *)
Theorem log_food_other_dates (s : store) (today name : string)
    (quantity : float) (meal : string) (clock : string)
    (date_str : option string) :
  let s' := snd (log_food today name quantity meal s) in
  (query_date clock date_str <> today ->
   fst (get_meals clock date_str s') = fst (get_meals clock date_str s))
  /\ (clock <> today ->
      fst (today_summary clock s') = fst (today_summary clock s)).
Proof.
  intros s'. subst s'.
  destruct (log_food_cases s today name quantity meal) as [->|[id ->]];
    [now split|].
  set (l := Log.mk (Sql.new_rowid (logs_seq s) (map Log.id (logs s)))
              id (Sql.store_real quantity) today (Some meal)).
  assert (Hskip : forall d, d <> today ->
            Sql.join_on_date (logs s ++ [l]) (foods s) d
            = Sql.join_on_date (logs s) (foods s) d).
  { intros d Hd.
    rewrite (join_on_date_skip (logs s) [] l (foods s) d), app_nil_r;
      [reflexivity|]. simpl. congruence. }
  split; intros Hne.
  - apply get_meals_same. exact (Hskip _ Hne).
  - apply today_summary_same; [exact (Hskip _ Hne) | reflexivity].
Qed.

Lemma log_food_other_dates_witness :
  fst (get_meals "2024-01-03" (Some "2024-01-01")
         (snd (log_food "2024-01-03" "egg" 2 "dinner" demo_store)))
  = fst (get_meals "2024-01-03" (Some "2024-01-01") demo_store)
  /\ fst (today_summary "2024-01-01"
            (snd (log_food "2024-01-03" "egg" 2 "dinner" demo_store)))
     = fst (today_summary "2024-01-01" demo_store).
Proof.
  split.
  - apply (proj1 (log_food_other_dates demo_store "2024-01-03" "egg" 2
                    "dinner" "2024-01-03" (Some "2024-01-01"))).
    simpl. discriminate.
  - apply (proj2 (log_food_other_dates demo_store "2024-01-03" "egg" 2
                    "dinner" "2024-01-01" None)).
    discriminate.
Defined.

(** A food stored by [add_food] and then logged is reported as stored.
    When the calories are an integer SQLite can hold, the quantity is
    stored as [q] and no other entry of the day has a NULL quantity,
    [get_meals] for the day returns and has, in the group of the meal
    given (["unspecified"] for the empty label), a view with the food's
    name, the quantity [q], the calories passed to [add_food], the three
    floats as their columns store them, and
    [calories_total = calories * q]. *)
Theorem add_log_get_round_trip (DB_PATH : string) (s : store)
    (today name : string) (calories : Z) (protein carbs fat : float)
    (quantity q : float) (meal : string) :
  schema_ok s ->
  Sql.int64 calories = true ->
  Sql.store_real quantity = Some q ->
  forallb has_quantity
    (entries_on (snd (add_food DB_PATH name calories protein carbs fat s))
       today) = true ->
  exists r rowid vs,
    fst (get_meals today None
           (snd (log_food today name quantity meal
                   (snd (add_food DB_PATH name calories protein carbs fat s)))))
    = Py.Return r
    /\ In (Py.or_str (Some meal) "unspecified", vs) (GetMeals.meals r)
    /\ In (View.mk rowid name (Some q) calories (Sql.store_real protein)
             (Sql.store_real carbs) (Sql.store_real fat)
             (Py.mul (Py.Int calories) (Py.Float q))) vs.
Proof.
  intros Hs Hcal Hq Hall.
  set (s1 := snd (add_food DB_PATH name calories protein carbs fat s)) in *.
  assert (Hs1 : schema_ok s1).
  { exact (step_schema_ok DB_PATH s
             (CallAddFood name calories protein carbs fat) Hs). }
  set (f := Food.mk (Sql.new_rowid (foods_seq s) (map Food.id (foods s)))
              name calories (Sql.store_real protein) (Sql.store_real carbs)
              (Sql.store_real fat)).
  assert (Hf : In f (foods s1)).
  { subst s1. rewrite (add_food_foods _ _ _ _ _ _ _ Hcal). apply in_elt. }
  destruct (log_food_entries s1 today quantity meal f Hs1 Hf) as [Hs2 He].
  change (Food.name f) with name in Hs2, He.
  set (s2 := snd (log_food today name quantity meal s1)) in *.
  set (l := Log.mk (Sql.new_rowid (logs_seq s1) (map Log.id (logs s1)))
              (Food.id f) (Sql.store_real quantity) today (Some meal)) in *.
  assert (Hl : Log.quantity (fst (l, f)) = Some q) by exact Hq.
  exists {| GetMeals.date := today;
            GetMeals.meals := groups_by_meal (entries_on s2 today) |},
    (Log.id l), (group_of (meal_name (l, f)) (entries_on s2 today)).
  rewrite (get_meals_run s2 today None Hs2).
  change (query_date today None) with today. unfold meals_of.
  rewrite He, (has_quantity_snoc _ (l, f) q Hall Hl).
  split; [reflexivity|]. cbn [GetMeals.meals].
  change (Py.or_str (Some meal) "unspecified") with (meal_name (l, f)). split.
  - apply in_groups_by_meal. split; [|reflexivity].
    rewrite map_app. apply in_or_app. right. now left.
  - apply in_group_of. exists (l, f), q.
    repeat split; [apply in_elt | assumption].
Qed.

Lemma add_log_get_round_trip_witness :
  exists r rowid vs,
    fst (get_meals "2024-01-03" None
           (snd (log_food "2024-01-03" "pear" 1.5 ""
                   (snd (add_food "/tmp/nutrition.db" "pear" 100 nan 26 (-0)
                           demo_store)))))
    = Py.Return r
    /\ In ("unspecified", vs) (GetMeals.meals r)
    /\ In (View.mk rowid "pear" (Some 1.5%float) 100 None (Some 26%float)
             (Some 0%float) (Py.Float 150)) vs.
Proof.
  exact (add_log_get_round_trip "/tmp/nutrition.db" demo_store "2024-01-03"
           "pear" 100 nan 26 (-0) 1.5 1.5 "" demo_store_ok eq_refl eq_refl
           eq_refl).
Defined.

(** ** Rows that predate the [meal] column *)

(** On a file whose [logs] table has no [meal] column, [init_db] keeps
    every log row with its id, food, quantity and date and gives each a
    NULL [meal]; [get_meals], when it returns, reports those rows under
    the one key ["unspecified"]; and it returns when no row of the date
    queried has a NULL quantity. *)
Theorem legacy_rows_unspecified (d : database) (rows : list LegacyLog.t)
    (seq : Z) (today : string) (date_str : option string) :
  file_ok d -> db_logs d = Some (LogsLegacy rows seq) ->
  let s := init_db d in
  map (fun l => LegacyLog.mk (Log.id l) (Log.food_id l) (Log.quantity l)
                  (Log.log_date l)) (logs s) = rows
  /\ (forall l, In l (logs s) -> Log.meal l = None)
  /\ (forall r,
        fst (get_meals today date_str s) = Py.Return r ->
        (forall k vs, In (k, vs) (GetMeals.meals r) -> k = "unspecified")
        /\ (forall row f,
              In row rows ->
              LegacyLog.log_date row = query_date today date_str ->
              In f (foods s) -> Food.id f = LegacyLog.food_id row ->
              exists vs v,
                In ("unspecified", vs) (GetMeals.meals r) /\ In v vs
                /\ View.log_id v = LegacyLog.id row
                /\ View.food v = Food.name f
                /\ View.quantity v = LegacyLog.quantity row))
  /\ ((forall row,
         In row rows -> LegacyLog.log_date row = query_date today date_str ->
         LegacyLog.quantity row <> None) ->
      exists r, fst (get_meals today date_str s) = Py.Return r).
Proof.
  intros Hd Hl s.
  assert (Hs : schema_ok s) by (apply init_db_schema_ok, Hd).
  assert (Hlogs : logs s = map Sql.add_meal_column rows).
  { subst s. unfold init_db. now rewrite Hl. }
  assert (Hname : forall e, In e (entries_on s (query_date today date_str)) ->
                            meal_name e = "unspecified").
  { intros [l f] He. apply (in_entries_on s _ l f Hs) in He as (Hin & _).
    rewrite Hlogs in Hin. apply in_map_iff in Hin as (r & <- & _).
    reflexivity. }
  split; [|split; [|split]].
  - rewrite Hlogs, map_map. rewrite <- (map_id rows) at 2.
    apply map_ext. now intros [].
  - intros l Hin. rewrite Hlogs in Hin.
    apply in_map_iff in Hin as (r & <- & _). reflexivity.
  - intros r Hr.
    apply (get_meals_returned s today date_str r Hs) in Hr as [Hall ->].
    cbn [GetMeals.meals]. split.
    + intros k vs Hin. apply in_groups_by_meal in Hin as [Hk _].
      apply in_map_iff in Hk as (e & <- & He). now apply Hname.
    + intros row f Hrow Hdate Hf Hid.
      assert (He : In (Sql.add_meal_column row, f)
                     (entries_on s (query_date today date_str))).
      { apply in_entries_on; [assumption|]. rewrite Hlogs.
        repeat split; auto. now apply in_map. }
      pose proof (proj1 (forallb_forall _ _) Hall _ He) as Hq.
      unfold has_quantity in Hq.
      destruct (Log.quantity (fst (Sql.add_meal_column row, f))) as [q|] eqn:Eq;
        [|discriminate].
      exists (group_of "unspecified" (entries_on s (query_date today date_str))),
        (entry_view (Sql.add_meal_column row, f) q).
      split; [|split; [|split; [|split]]].
      * apply in_groups_by_meal. split; [|reflexivity].
        rewrite <- (Hname _ He). now apply in_map.
      * apply in_group_of. exists (Sql.add_meal_column row, f), q.
        split; [assumption|]. split; [now apply Hname|].
        split; [assumption | reflexivity].
      * reflexivity.
      * reflexivity.
      * cbn [entry_view View.quantity]. now rewrite <- Eq.
  - intros Hq. rewrite (get_meals_run s today date_str Hs). unfold meals_of.
    assert (Hall : forallb has_quantity
                     (entries_on s (query_date today date_str)) = true).
    { apply forallb_forall. intros [l f] He.
      apply (in_entries_on s _ l f Hs) in He as (Hin & Hdate & _).
      rewrite Hlogs in Hin. apply in_map_iff in Hin as (row & <- & Hrow).
      specialize (Hq row Hrow Hdate). unfold has_quantity. simpl.
      now destruct (LegacyLog.quantity row). }
    rewrite Hall. eauto.
Qed.

Lemma legacy_file_ok : file_ok legacy_file.
Proof.
  constructor; simpl; intros t [= <-]; simpl.
  1-3: repeat constructor; simpl; intuition (discriminate || lia).
  apply goals_ok_singleton.
Qed.

Lemma legacy_rows_unspecified_witness :
  fst (get_meals "2024-01-01" (Some "2023-12-31") (init_db legacy_file))
  = Py.Return
      {| GetMeals.date := "2023-12-31";
         GetMeals.meals :=
           [ ("unspecified",
              [ View.mk 1 "apple" (Some 2%float) 95 (Some 0.5%float)
                  (Some 25%float) (Some 0.25%float) (Py.Float 190);
                View.mk 2 "apple" (Some 0.5%float) 95 (Some 0.5%float)
                  (Some 25%float) (Some 0.25%float) (Py.Float 47.5) ]) ] |}
  /\ (forall l, In l (logs (init_db legacy_file)) -> Log.meal l = None)
  /\ forall r,
       fst (get_meals "2024-01-01" (Some "2023-12-31") (init_db legacy_file))
       = Py.Return r ->
       forall k vs, In (k, vs) (GetMeals.meals r) -> k = "unspecified".
Proof.
  destruct (legacy_rows_unspecified legacy_file _ 2 "2024-01-01"
              (Some "2023-12-31") legacy_file_ok eq_refl)
    as (_ & Hmeal & Hgroups & _).
  split; [reflexivity|]. split; [exact Hmeal|].
  intros r Hr. exact (proj1 (Hgroups r Hr)).
Defined.

(** ** What [add_food] does to the aggregations *)

Lemma find_app_first {A : Type} (p : A -> bool) (xs ys : list A) :
  find p (xs ++ ys) = match find p xs with
                      | Some x => Some x
                      | None => find p ys
                      end.
Proof.
  induction xs as [|x xs IH]; simpl; [reflexivity|].
  now destruct (p x).
Qed.

(** The food a log row is joined to after [add_food]: the one it had,
    unless that food carried the name stored. *)
Lemma food_of_add_food (P name : string) (cal : Z) (p c f : float)
    (s : store) (l : Log.t) :
  schema_ok s ->
  Sql.int64 cal = true ->
  Log.food_id l < Sql.new_rowid (foods_seq s) (map Food.id (foods s)) ->
  food_of (snd (add_food P name cal p c f s)) l
  = match food_of s l with
    | Some g => if String.eqb (Food.name g) name then None else Some g
    | None => None
    end.
Proof.
  intros Hs Hcal Hl. unfold food_of.
  rewrite (add_food_foods _ _ _ _ _ _ _ Hcal), find_app_first.
  simpl. destruct (Z.eqb_spec (Sql.new_rowid (foods_seq s)
                                 (map Food.id (foods s))) (Log.food_id l))
    as [E|_]; [lia|].
  set (keep := fun g => negb (String.eqb (Food.name g) name)).
  assert (Hkept : NoDup (map Food.id (filter keep (foods s))))
    by (apply unique_filter, (foods_pk s Hs)).
  destruct (find _ (foods s)) as [g|] eqn:Eg.
  - apply find_some in Eg as [Hg Hid]. apply Z.eqb_eq in Hid.
    destruct (String.eqb (Food.name g) name) eqn:En.
    + rewrite find_id_none; [reflexivity|].
      intros h Hh Hhid. apply filter_In in Hh as [Hh Hk].
      rewrite <- Hid in Hhid.
      rewrite (unique_row _ _ Food.id (foods s) h g (foods_pk s Hs) Hh Hg Hhid)
        in Hk.
      unfold keep in Hk. rewrite En in Hk. discriminate.
    + rewrite <- Hid, find_by_id; [reflexivity | assumption |].
      apply filter_In. split; [assumption|]. unfold keep. now rewrite En.
  - rewrite find_id_none; [reflexivity|].
    intros h Hh Hhid. apply filter_In in Hh as [Hh _].
    pose proof (find_none _ _ Eg h Hh) as Hne. simpl in Hne.
    apply Z.eqb_neq in Hne. contradiction.
Qed.

(** The exact effect of [add_food] on both aggregations.  With calories
    SQLite can hold, the entries of every date after the call are the
    entries before it without those of the food that carried the name; and
    with any calories, storing a name no food carries changes no result
    of [get_meals] or [today_summary]. *)
Theorem add_food_entries (DB_PATH name : string) (calories : Z)
    (protein carbs fat : float) (s : store) (d : string) :
  schema_ok s -> refs_issued s ->
  let s' := snd (add_food DB_PATH name calories protein carbs fat s) in
  (Sql.int64 calories = true ->
   entries_on s' d
   = filter (fun e => negb (String.eqb (Food.name (snd e)) name))
       (entries_on s d))
  /\ ((forall g, In g (foods s) -> Food.name g <> name) ->
      forall today date_str,
        fst (get_meals today date_str s') = fst (get_meals today date_str s)
        /\ fst (today_summary today s') = fst (today_summary today s)).
Proof.
  intros Hs Hrefs s'.
  assert (Hs' : schema_ok s').
  { exact (step_schema_ok DB_PATH s
             (CallAddFood name calories protein carbs fat) Hs). }
  assert (Hlogs : logs s' = logs s).
  { subst s'. rewrite add_food_store. now destruct (Sql.int64 calories). }
  assert (Hgoals : goals s' = goals s).
  { subst s'. rewrite add_food_store. now destruct (Sql.int64 calories). }
  assert (Hent : Sql.int64 calories = true ->
            forall d0,
              entries_on s' d0
              = filter (fun e => negb (String.eqb (Food.name (snd e)) name))
                  (entries_on s d0)).
  { intros Hcal d0. unfold entries_on. rewrite Hlogs.
    assert (Hsub : forall l,
              In l (filter (fun l => String.eqb (Log.log_date l) d0) (logs s))
              -> In l (logs s)).
    { intros l Hl. now apply filter_In in Hl. }
    induction (filter _ (logs s)) as [|l ls IH]; simpl; [reflexivity|].
    rewrite filter_app, <- IH by (intros; apply Hsub; now right).
    f_equal. subst s'.
    rewrite (food_of_add_food DB_PATH name calories protein carbs fat s l Hs
               Hcal (Hrefs l (Hsub l (or_introl eq_refl)))).
    destruct (food_of s l) as [g|]; simpl; [|reflexivity].
    now destruct (String.eqb (Food.name g) name). }
  split; [intros Hcal; now apply Hent|].
  intros Hnew today date_str.
  assert (Hsame : forall d0, entries_on s' d0 = entries_on s d0).
  { intros d0. destruct (Sql.int64 calories) eqn:Hcal.
    - rewrite (Hent eq_refl). apply forallb_filter_id, forallb_forall.
      intros [l g] He.
      apply (in_entries_on s d0 l g Hs) in He as (_ & _ & Hg & _).
      apply negb_true_iff, String.eqb_neq. simpl. now apply Hnew.
    - subst s'. now rewrite add_food_store, Hcal. }
  split.
  - apply get_meals_same.
    now rewrite (join_on_date_entries s' _ Hs'), (join_on_date_entries s _ Hs).
  - apply today_summary_same; [|exact Hgoals].
    now rewrite (join_on_date_entries s' _ Hs'), (join_on_date_entries s _ Hs).
Qed.

Lemma demo_store_refs : refs_issued demo_store.
Proof.
  intros l Hl. simpl in Hl. vm_compute.
  destruct Hl as [<-|[<-|[<-|[]]]]; reflexivity.
Qed.

Lemma add_food_entries_witness :
  entries_on
    (snd (add_food "/tmp/nutrition.db" "apple" 100 1 26 0.5 demo_store))
    "2024-01-01"
  = [ (Log.mk 2 2 (Some 1.5%float) "2024-01-01" (Some "lunch"),
       Food.mk 2 "egg" 70 (Some 6%float) (Some 0.5%float) (Some 5%float)) ]
  /\ fst (get_meals "2024-01-01" None
            (snd (add_food "/tmp/nutrition.db" "pear" 100 1 26 0.5 demo_store)))
     = fst (get_meals "2024-01-01" None demo_store).
Proof.
  split.
  - rewrite (proj1 (add_food_entries "/tmp/nutrition.db" "apple" 100 1 26 0.5
                      demo_store "2024-01-01" demo_store_ok demo_store_refs)
               eq_refl).
    reflexivity.
  - apply (proj2 (add_food_entries "/tmp/nutrition.db" "pear" 100 1 26 0.5
                    demo_store "2024-01-01" demo_store_ok demo_store_refs)).
    simpl. intros g [<-|[<-|[]]]; discriminate.
Defined.

(** ** References stay within the ids given out *)

Lemma step_refs_issued (P : string) (s : store) (k : call) :
  refs_issued s -> refs_issued (step P s k).
Proof.
  intros Hrefs. destruct k; cbn [step].
  - rewrite add_food_store. destruct (Sql.int64 calories); [|exact Hrefs].
    intros l Hl. specialize (Hrefs l Hl).
    cbn [foods foods_seq set_foods fst snd].
    unfold Sql.new_rowid in *. lia.
  - unfold log_food, bind, query, execute, ret.
    destruct (Sql.select_food_id name (foods s)) as [id|] eqn:E;
      [|exact Hrefs].
    intros l Hl. simpl in Hl. apply in_app_iff in Hl as [Hl|[<-|[]]];
      [exact (Hrefs l Hl)|]. simpl.
    unfold Sql.select_food_id in E.
    destruct (find _ (foods s)) as [g|] eqn:Eg; [|discriminate].
    injection E as <-. apply find_some in Eg as [Hg _].
    apply new_rowid_fresh. now apply in_map.
  - now rewrite get_meals_store.
  - rewrite set_goal_store. now destruct (Sql.int64 calories).
  - now rewrite today_summary_store.
  - exact Hrefs.
Qed.

(** Started on a fresh file, the program keeps every log row's [food_id]
    among the ids the [foods] table has given out and its tables within
    the schema's constraints, whatever is called. *)
Theorem refs_issued_reached (DB_PATH : string) (calls : list call) :
  refs_issued (run DB_PATH calls (init_db fresh_file))
  /\ schema_ok (run DB_PATH calls (init_db fresh_file)).
Proof.
  split; [|apply run_schema_ok, init_db_schema_ok, fresh_file_ok].
  assert (H0 : refs_issued (init_db fresh_file)) by (intros l []).
  revert H0. generalize (init_db fresh_file).
  induction calls as [|k calls IH]; intros s Hs; simpl; [assumption|].
  apply IH, step_refs_issued, Hs.
Qed.

(** ** The database file *)

Example db_locations_strings :
  map Path.to_string DB_LOCATIONS
  = [ "/data/nutrition.db"; "/tmp/nutrition.db"; "nutrition.db" ].
Proof. reflexivity. Qed.

Example db_locations_test_files :
  map (fun l => Path.to_string
                  (Path.div (Path.parent l) (Path.of_string ".write_test")))
    DB_LOCATIONS
  = [ "/data/.write_test"; "/tmp/.write_test"; ".write_test" ].
Proof. reflexivity. Qed.

Section StartupFacts.

Variable FS : Type.
Variables mkdir touch unlink : Path.t -> FS -> bool * FS.

Local Abbreviation test := (write_test FS mkdir touch unlink).
Local Abbreviation choose := (choose_db_path FS mkdir touch unlink).
Local Abbreviation failing := (all_fail FS mkdir touch unlink).

Lemma choose_after_failures (before : list Path.t) :
  forall rest fs fs0,
    failing before fs fs0 -> choose (before ++ rest) fs = choose rest fs0.
Proof.
  induction before as [|b before IH]; intros rest fs fs0 H.
  - inversion H; subst. reflexivity.
  - inversion H as [|? ? ? fs1 ? Hfail Hrest]; subst. simpl.
    rewrite Hfail. now apply IH.
Qed.

Lemma choose_none (locations : list Path.t) :
  forall fs fs', choose locations fs = (None, fs') <-> failing locations fs fs'.
Proof.
  induction locations as [|l locations IH]; intros fs fs'; simpl.
  - split.
    + intros [= <-]. constructor.
    + intros H. inversion H; subst. reflexivity.
  - destruct (test l fs) as [[|] fs1] eqn:E.
    + split; [discriminate|]. intros H.
      inversion H as [|? ? ? fs2 ? Hfail _]; subst. congruence.
    + rewrite IH. split.
      * intros H. econstructor; eassumption.
      * intros H. inversion H as [|? ? ? fs2 ? Hfail Hrest]; subst.
        congruence.
Qed.

Lemma choose_some (locations : list Path.t) :
  forall fs p fs',
    choose locations fs = (Some p, fs') ->
    exists before after fs0,
      locations = before ++ p :: after
      /\ failing before fs fs0
      /\ test p fs0 = (true, fs').
Proof.
  induction locations as [|l locations IH]; intros fs p fs'; simpl;
    [discriminate|].
  destruct (test l fs) as [[|] fs1] eqn:E.
  - intros [= <- <-]. exists [], locations, fs.
    repeat split; [constructor | assumption].
  - intros H. destruct (IH _ _ _ H) as (before & after & fs0 & -> & Hf & Ht).
    exists (l :: before), after, fs0.
    repeat split; [econstructor; eassumption | assumption].
Qed.

(** [DB_PATH] is the first location, in the order of the list, whose write
    test passes: the loop returns a location exactly when the locations
    before it were tried one after the other and failed and its own test
    then passed, and the file system is left as that test left it, so no
    later location is touched.  It returns none exactly when every
    location was tried and failed. *)
Theorem choose_db_path_first (locations : list Path.t) (fs : FS) :
  (forall p fs',
     choose locations fs = (Some p, fs') <->
     exists before after fs0,
       locations = before ++ p :: after
       /\ failing before fs fs0
       /\ test p fs0 = (true, fs'))
  /\ (forall fs', choose locations fs = (None, fs') <-> failing locations fs fs').
Proof.
  split; [|intros fs'; apply choose_none].
  intros p fs'. split; [apply choose_some|].
  intros (before & after & fs0 & -> & Hf & Ht).
  rewrite (choose_after_failures before _ fs fs0 Hf). simpl. now rewrite Ht.
Qed.

(** When whether a location passes the write test does not depend on what
    was tried before, the import settles on the first location of
    [DB_LOCATIONS] that passes, and it raises [RuntimeError] exactly when
    none does. *)
Theorem choose_or_raise_first (writable : Path.t -> bool) (fs : FS) :
  (forall p fs0, fst (test p fs0) = writable p) ->
  fst (choose_or_raise FS mkdir touch unlink fs)
  = match find writable DB_LOCATIONS with
    | Some location => Started location
    | None => RuntimeError "No writable location found for database!"
    end.
Proof.
  intros Hw. unfold choose_or_raise.
  assert (H : forall locations fs0,
             fst (choose locations fs0) = find writable locations).
  { induction locations as [|l locations IH]; intros fs0; simpl;
      [reflexivity|].
    rewrite <- (Hw l fs0). destruct (test l fs0) as [[|] fs1]; simpl;
      [reflexivity | apply IH]. }
  specialize (H DB_LOCATIONS fs).
  destruct (choose DB_LOCATIONS fs) as [found fs']. simpl in H.
  now rewrite H.
Qed.

End StartupFacts.

(** A file system in which [/data] cannot be created and everything else
    can be written. *)
Lemma choose_or_raise_first_witness :
  let mkdir := fun (p : Path.t) (fs : unit) =>
                 (negb (String.eqb (Path.to_string p) "/data"), fs) in
  let ok := fun (_ : Path.t) (fs : unit) => (true, fs) in
  fst (choose_or_raise unit mkdir ok ok tt)
  = Started (Path.of_string "/tmp/nutrition.db").
Proof.
  intros mkdir ok.
  apply (choose_or_raise_first unit mkdir ok ok
           (fun p => negb (String.eqb (Path.to_string (Path.parent p)) "/data"))
           tt).
  intros p []. unfold write_test, mkdir, ok.
  now destruct (negb _).
Defined.
